(** * spuppy: configuration validation and upload orchestration

    A shallow embedding of [config.py], [sputil.py] and [spup.py].

    Python values are modelled as follows.
    - [str] is [string]; an optional command line argument ([None] or a
      [str]) is [option string]; truthiness ([if x:]) is written out with
      [truthy] and [truthy_opt].
    - Python exceptions are values of [exn]; code that may raise returns a
      [result].
    - The local file system consulted through [os.path] and [os] is a tree
      of directories and regular files together with a current directory;
      paths are resolved component by component the way the kernel does
      for a file system without symbolic links.
    - The remote Sharepoint site is a deterministic state machine given by
      a record of operations; every call is recorded in a trace. *)

From Stdlib Require Import String Ascii List ZArith Bool Lia.
Import ListNotations.

Open Scope list_scope.
Open Scope string_scope.

Set Warnings "-register-all".

(** ** Python built-ins used by the program *)

Module Py.

(** Exceptions that the modelled code paths can raise. *)
Inductive exn : Type :=
| FileNotFoundError (filename : string)
| NotADirectoryError (filename : string)
| YAMLError
| KeyError (key : string)
| TypeError
| ClientRequestException (message : string)
| OtherException (description : string).

Inductive result (A : Type) : Type :=
| Ok (a : A)
| Raise (e : exn).
Arguments Ok {A} a.
Arguments Raise {A} e.

(** [bool(s)] for a [str]. *)
Definition truthy (s : string) : bool := negb (s =? "").

(** [bool(x)] for a value that is [None] or a [str]. *)
Definition truthy_opt (o : option string) : bool :=
  match o with
  | Some s => truthy s
  | None => false
  end.

(** [bool(x)] for a value that is [None] or a [list]. *)
Definition truthy_list {A : Type} (o : option (list A)) : bool :=
  match o with
  | Some (_ :: _) => true
  | _ => false
  end.

(** [str(x)] inside an f-string for a value that is [None] or a [str]. *)
Definition fmt (o : option string) : string :=
  match o with
  | Some s => s
  | None => "None"
  end.

(** [s.split(sep)] for a one-character separator: never returns the
    empty list, and keeps empty segments. *)
Fixpoint split (sep : ascii) (s : string) : list string :=
  match s with
  | EmptyString => [EmptyString]
  | String c s' =>
      if Ascii.eqb c sep then EmptyString :: split sep s'
      else match split sep s' with
           | w :: ws => String c w :: ws
           | [] => [String c EmptyString]
           end
  end.

(** [s.startswith(p)]. *)
Definition startswith (p s : string) : bool := String.prefix p s.

(** [s.endswith("/")]. *)
Fixpoint endswith_sep (s : string) : bool :=
  match s with
  | EmptyString => false
  | String c EmptyString => Ascii.eqb c "/"
  | String _ s' => endswith_sep s'
  end.

End Py.

(** ** [os.path] on a POSIX system ([posixpath]) *)

Module PosixPath.
Import Py.

Definition sep : ascii := "/"%char.

Definition isabs (p : string) : bool := startswith "/" p.

(** [os.path.join(a, b)] with two arguments. *)
Definition join (a b : string) : string :=
  if startswith "/" b then b
  else if negb (truthy a) || endswith_sep a then a ++ b
  else a ++ "/" ++ b.

(** [os.path.basename(p)]: what follows the last separator. *)
Definition basename (p : string) : string := last (split sep p) "".

(** Number of leading slashes that [normpath] keeps: POSIX lets exactly
    two leading slashes mean something else than one. *)
Definition initial_slashes (path : string) : nat :=
  if startswith "/" path then
    if startswith "//" path && negb (startswith "///" path) then 2 else 1
  else 0.

Definition is_nil {A : Type} (l : list A) : bool :=
  match l with [] => true | _ => false end.

(** One iteration of the loop of [normpath] over the components. *)
Definition norm_step (init : nat) (new_comps : list string) (comp : string)
  : list string :=
  if (comp =? "") || (comp =? ".") then new_comps
  else if negb (comp =? "..")
          || (Nat.eqb init 0 && is_nil new_comps)
          || (negb (is_nil new_comps) && (last new_comps "" =? ".."))
  then (new_comps ++ [comp])%list
  else removelast new_comps.

Definition normpath (path : string) : string :=
  if negb (truthy path) then "."
  else
    let init := initial_slashes path in
    let comps := fold_left (norm_step init) (split sep path) [] in
    let joined := String.concat "/" comps in
    let path' :=
      match init with
      | 0 => joined
      | 1 => "/" ++ joined
      | _ => "//" ++ joined
      end in
    if truthy path' then path' else ".".

(** [os.path.abspath(path)], given the result of [os.getcwd()]. *)
Definition abspath (getcwd : string) (path : string) : string :=
  normpath (if isabs path then path else join getcwd path).

End PosixPath.

(** ** The local file system *)

Module FS.
Import Py PosixPath.

(** A directory maps names to nodes; [st_size] is what [os.stat]
    reports for the node. *)
Inductive node : Type :=
| File (st_size : Z)
| Dir (st_size : Z) (entries : list (string * node)).

Record filesystem : Type := {
  root : node;
  cwd : list string  (* components of the current directory *)
}.

Fixpoint assoc {A : Type} (k : string) (l : list (string * A)) : option A :=
  match l with
  | [] => None
  | (k', v) :: l' => if k =? k' then Some v else assoc k l'
  end.

(** Descend from [n] along directory entry names. *)
Fixpoint walk (n : node) (comps : list string) : option node :=
  match comps with
  | [] => Some n
  | c :: cs =>
      match n with
      | Dir _ es =>
          match assoc c es with
          | Some n' => walk n' cs
          | None => None
          end
      | File _ => None
      end
  end.

(** One step of path resolution from the directory at location [here]:
    every component, also an empty one (from a doubled or trailing
    slash) or [.], is looked up in a directory. *)
Definition step (r : node) (cur : option (list string)) (comp : string)
  : option (list string) :=
  match cur with
  | None => None
  | Some here =>
      match walk r here with
      | Some (Dir _ es) =>
          if (comp =? "") || (comp =? ".") then Some here
          else if comp =? ".." then Some (removelast here)
          else match assoc comp es with
               | Some _ => Some (here ++ [comp])%list
               | None => None
               end
      | _ => None
      end
  end.

(** Where a path leads, from the root or from the current directory;
    the empty path leads nowhere. *)
Definition locate (fs : filesystem) (path : string) : option (list string) :=
  if negb (truthy path) then None
  else
    let start := if isabs path then [] else cwd fs in
    fold_left (step (root fs)) (split sep path) (Some start).

(** The node a path names, if any. *)
Definition resolve (fs : filesystem) (path : string) : option node :=
  match locate fs path with
  | Some loc => walk (root fs) loc
  | None => None
  end.

(** [os.getcwd()]. *)
Definition getcwd (fs : filesystem) : string :=
  "/" ++ String.concat "/" (cwd fs).

(** [os.path.exists], [os.path.isfile], [os.path.isdir]. *)
Definition exists_ (fs : filesystem) (path : string) : bool :=
  match resolve fs path with Some _ => true | None => false end.

Definition isfile (fs : filesystem) (path : string) : bool :=
  match resolve fs path with Some (File _) => true | _ => false end.

Definition isdir (fs : filesystem) (path : string) : bool :=
  match resolve fs path with Some (Dir _ _) => true | _ => false end.

(** [os.listdir(path)]: the entry names, in directory order. *)
Definition listdir (fs : filesystem) (path : string) : result (list string) :=
  match resolve fs path with
  | Some (Dir _ es) => Ok (map fst es)
  | Some (File _) => Raise (NotADirectoryError path)
  | None => Raise (FileNotFoundError path)
  end.

(** [os.path.getsize(path)]. *)
Definition getsize (fs : filesystem) (path : string) : result Z :=
  match resolve fs path with
  | Some (File sz) => Ok sz
  | Some (Dir sz _) => Ok sz
  | None => Raise (FileNotFoundError path)
  end.

Definition abspath (fs : filesystem) (path : string) : string :=
  PosixPath.abspath (getcwd fs) path.

End FS.

(** ** [config.py] *)

Module Config.
Import Py PosixPath.

Notation "x <- e ;; k" :=
  (match e with Ok x => k | Raise err => Raise err end)
    (at level 61, e at next level, right associativity, only parsing).

(** What [yaml.safe_load] returns.  Mapping keys are restricted to
    strings: a key of another type never equals the string keys the
    program looks up. *)
Inductive yaml : Type :=
| YNull
| YBool (b : bool)
| YInt (z : Z)
| YStr (s : string)
| YSeq (items : list yaml)
| YMap (pairs : list (string * yaml)).

(** The state of [config.yaml] in the current directory. *)
Inductive config_file : Type :=
| Missing
| Malformed
| Document (conf : yaml).

(** [with open("config.yaml") as f: conf = yaml.safe_load(f)]. *)
Definition load_config (cf : config_file) : result yaml :=
  match cf with
  | Missing => Raise (FileNotFoundError "config.yaml")
  | Malformed => Raise YAMLError
  | Document conf => Ok conf
  end.

(** [v[key]] for a string key. *)
Definition getitem (v : yaml) (key : string) : result yaml :=
  match v with
  | YMap pairs =>
      match FS.assoc key pairs with
      | Some x => Ok x
      | None => Raise (KeyError key)
      end
  | _ => Raise TypeError
  end.

Module SharepointConfig.

Record t : Type := {
  tenant : yaml;
  client : yaml;
  site : yaml;
  secret : yaml;
  subsite : option string
}.

Definition __init__ (cf : config_file) (subsite : option string) : result t :=
  conf <- load_config cf ;;
  sp <- getitem conf "sp" ;;
  tenant <- getitem sp "tenant" ;;
  sp <- getitem conf "sp" ;;
  client <- getitem sp "client" ;;
  sp <- getitem conf "sp" ;;
  site <- getitem sp "site" ;;
  sp <- getitem conf "sp" ;;
  secret <- getitem sp "secret" ;;
  Ok {| tenant := tenant; client := client; site := site;
        secret := secret; subsite := subsite |}.

End SharepointConfig.

Module RuntimeConfig.

Record t : Type := {
  debug : bool;
  chunk_size : yaml
}.

Definition __init__ (cf : config_file) (debug : bool) : result t :=
  conf <- load_config cf ;;
  runtime <- getitem conf "runtime" ;;
  chunk_size <- getitem runtime "chunk_size" ;;
  Ok {| debug := debug; chunk_size := chunk_size |}.

End RuntimeConfig.

(** *** The pattern [^[a-zA-Z0-9._-]+$] *)

Definition between (lo hi : nat) (c : ascii) : bool :=
  (lo <=? nat_of_ascii c)%nat && (nat_of_ascii c <=? hi)%nat.

(** The character class [[a-zA-Z0-9._-]]. *)
Definition allowed_char (c : ascii) : bool :=
  between 97 122 c || between 65 90 c || between 48 57 c
  || Ascii.eqb c "." || Ascii.eqb c "_" || Ascii.eqb c "-".

Definition newline : string := String (ascii_of_nat 10) EmptyString.

(** [$] of Python's [re] without [MULTILINE]: it matches at the end of
    the string and also just before a newline that ends the string. *)
Definition at_dollar (rest : string) : bool :=
  (rest =? "") || (rest =? newline).

(** [[a-zA-Z0-9._-]*$] at [s], greedy with backtracking: take one more
    character of the class if the rest then matches, else try [$]. *)
Fixpoint class_star_dollar (s : string) : bool :=
  match s with
  | EmptyString => at_dollar s
  | String c s' =>
      if allowed_char c && class_star_dollar s' then true else at_dollar s
  end.

(** [allowed_path.match(s)]: [match] anchors at the start, where [^]
    holds, and [+] needs one character of the class. *)
Definition allowed_path_match (s : string) : bool :=
  match s with
  | EmptyString => false
  | String c s' => allowed_char c && class_star_dollar s'
  end.

Module FilesConfig.

Record t : Type := {
  path : option string;
  files : option (list string);
  out_folder : option string
}.

Definition __init__ (fs : FS.filesystem)
           (path files out_folder : option string) : t :=
  {| path := path;
     files :=
       match files with
       | Some s => if truthy s then Some (split "," s) else None
       | None => None
       end;
     out_folder :=
       if truthy_opt out_folder then out_folder
       else match path with
            | Some p =>
                if truthy p then Some (basename (FS.abspath fs p)) else None
            | None => None
            end |}.

Definition _verify_path (fs : FS.filesystem) (self : t) : list string :=
  match path self with
  | Some p =>
      if truthy p then
        if negb (FS.exists_ fs p) then [p ++ " does not exist"]
        else if negb (FS.isdir fs p) then [p ++ " is not a directory"]
        else []
      else []
  | None => []
  end.

(** The body of the loop of [_verify_files] for one entry. *)
Definition verify_file (fs : FS.filesystem) (self : t) (f : string)
  : list string :=
  if negb (FS.exists_ fs f) then
    match path self with
    | Some p =>
        if truthy p && negb (FS.exists_ fs (join p f)) then
          [f ++ " does not exist on path " ++ p]
        else if truthy p && negb (FS.isfile fs (join p f)) then
          [f ++ " is not a file"]
        else if negb (truthy p) then [f ++ " does not exist"]
        else []
    | None => [f ++ " does not exist"]
    end
  else if negb (FS.isfile fs f) then [f ++ " is not a file"]
  else [].

Definition _verify_files (fs : FS.filesystem) (self : t) : list string :=
  match files self with
  | Some fl => flat_map (verify_file fs self) fl
  | None => []
  end.

Definition _verify_out_folder (self : t) : list string :=
  match out_folder self with
  | Some o =>
      if negb (truthy o) then []
      else if negb (allowed_path_match o) then
        [o ++ " contains illegal characters: only a-zA-Z0-9._- are allowed"]
      else []
  | None => []
  end.

(** The local variable [local_path] of [_fix_paths]. *)
Definition local_path (fs : FS.filesystem) (self : t) : string :=
  match path self with
  | Some p => if truthy p then FS.abspath fs p else FS.abspath fs "."
  | None => FS.abspath fs "."
  end.

Definition _fix_paths (fs : FS.filesystem) (self : t) : result t :=
  let local_path := local_path fs self in
  match files self with
  | Some (x :: xs) =>
      Ok {| path := path self;
            files := Some (map (join local_path) (x :: xs));
            out_folder := out_folder self |}
  | _ =>
      names <- FS.listdir fs local_path ;;
      Ok {| path := path self;
            files := Some (filter (FS.isfile fs)
                                  (map (join local_path) names));
            out_folder := out_folder self |}
  end.

(** [verify] returns the error list and mutates [self]; the model
    returns the error list together with the request afterwards. *)
Definition verify (fs : FS.filesystem) (self : t)
  : result (list string * t) :=
  let ret :=
    if negb (truthy_opt (path self)) && negb (truthy_list (files self))
    then ["at least one of -i or -f must be present"] else [] in
  let ret := (ret ++ _verify_path fs self)%list in
  let ret := (ret ++ _verify_files fs self)%list in
  let ret := (ret ++ _verify_out_folder self)%list in
  let ret := filter truthy ret in
  match ret with
  | [] =>
      self' <- _fix_paths fs self ;;
      Ok (ret, self')
  | _ => Ok (ret, self)
  end.

End FilesConfig.

End Config.

(** ** Effects: the log, the progress bar and the remote site *)

Module Effects.
Import Py Config.

(** [tqdm]: the progress bar of one file; [n] is the displayed count. *)
Record tqdm : Type := {
  total : Z;
  n : Z
}.

(** What [Logger.debug] is given: an object printed through its
    [__repr__], or the target url. *)
Inductive debug_item : Type :=
| ReprSharepointConfig (c : SharepointConfig.t)
| ReprRuntimeConfig (c : RuntimeConfig.t)
| ReprFilesConfig (c : FilesConfig.t)
| ReprSharepoint (url : yaml)
| ReprUrl (url : yaml).

(** Everything the run does that is visible from outside, in order. *)
Inductive event : Type :=
| LogDebug (item : debug_item)
| LogInfo (msg : string)
| LogError (msg : string)
| LogException (err : exn)
| LogSuccess (msg : string)
| Progress (bar : tqdm)
| NetAcquireToken (url client secret : yaml)
| NetGetWeb (url : yaml)
| NetAddFolder (url : yaml) (name : option string)
| NetUpload (url : yaml) (folder : option string) (file : string)
            (chunk_size : yaml).

Definition is_network (e : event) : bool :=
  match e with
  | NetAcquireToken _ _ _ | NetGetWeb _ | NetAddFolder _ _
  | NetUpload _ _ _ _ => true
  | _ => false
  end.

(** Lines printed with the red [FAIL:] prefix and logged at error
    level: [Logger.error] and [Logger.exception]. *)
Definition is_failure_log (e : event) : bool :=
  match e with
  | LogError _ | LogException _ => true
  | _ => false
  end.

(** The messages given to [Logger.error], in order. *)
Fixpoint logged_errors (tr : list event) : list string :=
  match tr with
  | [] => []
  | LogError msg :: tr' => msg :: logged_errors tr'
  | _ :: tr' => logged_errors tr'
  end.

(** The files for which an upload session was started, in order. *)
Fixpoint uploads_attempted (tr : list event) : list string :=
  match tr with
  | [] => []
  | NetUpload _ _ file _ :: tr' => file :: uploads_attempted tr'
  | _ :: tr' => uploads_attempted tr'
  end.

Section Remote.

(** The state of the remote site and of the session with it. *)
Variable RS : Type.

(** The office365 client: each operation answers from the remote
    state and changes it.  [create_upload_session] also gives the
    offsets that the client passes to the progress callback, in
    order, before the request ends with its result. *)
Record client : Type := {
  acquire_token_for_app : RS -> yaml -> yaml -> yaml -> result unit * RS;
  web_get : RS -> yaml -> result (string * string) * RS;
  folder_add : RS -> yaml -> option string -> result string * RS;
  create_upload_session :
    RS -> yaml -> option string -> string -> yaml ->
    (list Z * result string) * RS
}.

(** A computation: from the remote state to a result or a raised
    exception, the events it produced and the remote state after. *)
Definition M (A : Type) : Type := RS -> result A * (list event * RS).

Definition ret {A : Type} (a : A) : M A := fun s => (Ok a, ([], s)).

Definition raise {A : Type} (e : exn) : M A := fun s => (Raise e, ([], s)).

Definition bind {A B : Type} (m : M A) (k : A -> M B) : M B :=
  fun s =>
    match m s with
    | (Ok a, (t1, s1)) =>
        match k a s1 with
        | (r, (t2, s2)) => (r, ((t1 ++ t2)%list, s2))
        end
    | (Raise e, (t1, s1)) => (Raise e, (t1, s1))
    end.

(** [try: m  except Exception as e: h e]. *)
Definition try_except {A : Type} (m : M A) (h : exn -> M A) : M A :=
  fun s =>
    match m s with
    | (Ok a, (t1, s1)) => (Ok a, (t1, s1))
    | (Raise e, (t1, s1)) =>
        match h e s1 with
        | (r, (t2, s2)) => (r, ((t1 ++ t2)%list, s2))
        end
    end.

Definition lift {A : Type} (r : result A) : M A := fun s => (r, ([], s)).

Definition emit (e : event) : M unit := fun s => (Ok tt, ([e], s)).

(** A remote call: recorded in the trace, then answered. *)
Definition call {A : Type} (e : event) (op : RS -> result A * RS) : M A :=
  fun s => match op s with (r, s') => (r, ([e], s')) end.

Definition when (b : bool) (m : M unit) : M unit :=
  if b then m else ret tt.

End Remote.

Arguments ret {RS A} a.
Arguments raise {RS A} e.
Arguments bind {RS A B} m k.
Arguments try_except {RS A} m h.
Arguments lift {RS A} r.
Arguments emit {RS} e.
Arguments call {RS A} e op.
Arguments when {RS} b m.
Arguments acquire_token_for_app {RS} c.
Arguments web_get {RS} c.
Arguments folder_add {RS} c.
Arguments create_upload_session {RS} c.

End Effects.

(** ** [sputil.py] *)

Module Sputil.
Import Py PosixPath Config Effects.

Notation "'do' x <- m ; k" := (bind m (fun x => k))
  (at level 60, x name, m at next level, right associativity, only parsing).
Notation "'run' m ; k" := (bind m (fun _ => k))
  (at level 60, m at next level, right associativity, only parsing).

(** [a + b] where [b] is a [str]: defined for a [str] only. *)
Definition str_add (a : yaml) (b : string) : result yaml :=
  match a with
  | YStr s => Ok (YStr (s ++ b))
  | _ => Raise TypeError
  end.

(** [pbar.update(k)]: [self.n += k] after the test [k < 0]; both need
    a number ([bool] is a subclass of [int]). *)
Definition tqdm_update (pbar : tqdm) (k : yaml) : result tqdm :=
  match k with
  | YInt z => Ok {| total := total pbar; n := n pbar + z |}
  | YBool b =>
      Ok {| total := total pbar; n := n pbar + (if b then 1 else 0) |}
  | _ => Raise TypeError
  end.

Module Sharepoint.

Definition _MESSAGE : nat := 2.

Record t : Type := {
  _fconfig : FilesConfig.t;
  _spconfig : SharepointConfig.t;
  _runtime : RuntimeConfig.t;
  _url : yaml  (* [YNull] is [None] *)
}.

Definition __init__ (fconf : FilesConfig.t) (spconfig : SharepointConfig.t)
           (runtime : RuntimeConfig.t) : t :=
  {| _fconfig := fconf; _spconfig := spconfig; _runtime := runtime;
     _url := YNull |}.

Section Methods.

Variable RS : Type.
Variable office365 : client RS.
Variable fs : FS.filesystem.

Definition get_token (self : t) : M RS t :=
  let spc := _spconfig self in
  do url <- lift
       (if truthy_opt (SharepointConfig.subsite spc) then
          match str_add (SharepointConfig.site spc) "/" with
          | Ok u => str_add u (fmt (SharepointConfig.subsite spc))
          | Raise e => Raise e
          end
        else Ok (SharepointConfig.site spc));
  run when (RuntimeConfig.debug (_runtime self))
           (emit (LogDebug (ReprUrl url)));
  run call (NetAcquireToken url (SharepointConfig.client spc)
                            (SharepointConfig.secret spc))
           (fun s => acquire_token_for_app office365 s url
                       (SharepointConfig.client spc)
                       (SharepointConfig.secret spc));
  ret {| _fconfig := _fconfig self; _spconfig := spc;
         _runtime := _runtime self; _url := url |}.

(** [try: ... except ClientRequestException as err:] around one
    remote call: the server's message is logged and the exception
    is absorbed; any other exception passes through. *)
Definition query {A : Type} (e : event) (op : RS -> result A * RS)
  : M RS (option A) :=
  fun s =>
    match op s with
    | (Ok a, s') => (Ok (Some a), ([e], s'))
    | (Raise (ClientRequestException msg), s') =>
        (Ok None, ([e; LogError msg], s'))
    | (Raise err, s') => (Raise err, ([e], s'))
    end.

Definition verify_url (self : t) : M RS bool :=
  do web <- query (NetGetWeb (_url self))
                  (fun s => web_get office365 s (_url self));
  match web with
  | None => ret false
  | Some (title, url) =>
      run emit (LogSuccess ("Site " ++ title ++ ": " ++ url));
      ret true
  end.

Definition add_folder (self : t) : M RS bool :=
  let name := FilesConfig.out_folder (_fconfig self) in
  do new_folder <- query (NetAddFolder (_url self) name)
                         (fun s => folder_add office365 s (_url self) name);
  match new_folder with
  | None => ret false
  | Some serverRelativeUrl =>
      run emit (LogSuccess ("Added folder: " ++ serverRelativeUrl));
      ret true
  end.

(** The callback given to [create_upload_session]: [offset] is
    not used. *)
Definition display_upload_progress (self : t) (pbar : tqdm)
           (offset : Z) : result tqdm :=
  tqdm_update pbar (RuntimeConfig.chunk_size (_runtime self)).

(** The client calling the callback once per reported offset; the
    bar is redrawn after each update. *)
Fixpoint report_progress (self : t) (pbar : tqdm) (offsets : list Z)
  : M RS tqdm :=
  match offsets with
  | [] => ret pbar
  | offset :: rest =>
      do pbar' <- lift (display_upload_progress self pbar offset);
      run emit (Progress pbar');
      report_progress self pbar' rest
  end.

(** The body of the loop of [upload_files] for one file; [false]
    is the [return False] of the exception handler. *)
Definition upload_file (self : t) (f : string) : M RS bool :=
  let chunk := RuntimeConfig.chunk_size (_runtime self) in
  let folder := FilesConfig.out_folder (_fconfig self) in
  run emit (LogInfo ("File upload: " ++ basename f));
  do file_size <- lift (FS.getsize fs f);
  let pbar := {| total := file_size; n := 0 |} in
  do session <-
     (fun s =>
        match create_upload_session office365 s (_url self) folder f
                                    chunk with
        | (r, s') => (Ok r, ([NetUpload (_url self) folder f chunk], s'))
        end);
  run report_progress self pbar (fst session);
  match snd session with
  | Ok serverRelativeUrl =>
      run emit (LogSuccess ("File " ++ f ++ " uploaded to: "
                            ++ serverRelativeUrl));
      ret true
  | Raise (ClientRequestException msg) =>
      run emit (LogError msg);
      ret false
  | Raise err => raise err
  end.

Fixpoint upload_loop (self : t) (files : list string) : M RS bool :=
  match files with
  | [] => ret true
  | f :: rest =>
      do uploaded <- upload_file self f;
      if uploaded then upload_loop self rest else ret false
  end.

Definition upload_files (self : t) : M RS bool :=
  match FilesConfig.files (_fconfig self) with
  | Some files => upload_loop self files
  | None => raise TypeError  (* [for f in None] *)
  end.

End Methods.

End Sharepoint.

End Sputil.

(** ** [spup.py] *)

Module Spup.
Import Py Config Effects Sputil.

Module Uploader.

Record t : Type := {
  _debug : bool;
  _subsite : option string;
  _path : option string;
  _files : option string;
  _out : option string
}.

(** [main] returns [None] from each of its [return] statements; the
    model returns which of them was reached. *)
Inductive exit_point : Type :=
| ReturnInvalid           (* after logging the validation errors *)
| ReturnNoSite            (* [verify_url] gave [False] *)
| ReturnNoFolder          (* [add_folder] gave [False] *)
| ReturnUploaded (all : bool)  (* after [upload_files], with its result *)
| ReturnCaught (err : exn).    (* after the handler of the [try] *)

Section Main.

Variable RS : Type.
Variable office365 : client RS.
Variable fs : FS.filesystem.
Variable config_yaml : config_file.

Fixpoint log_errors (errors : list string) : M RS unit :=
  match errors with
  | [] => ret tt
  | v :: rest => run emit (LogError v); log_errors rest
  end.

(** The body of the [try] statement. *)
Definition upload (self : t) (fconf : FilesConfig.t)
           (spconf : SharepointConfig.t) (runtime : RuntimeConfig.t)
  : M RS exit_point :=
  let sp := Sharepoint.__init__ fconf spconf runtime in
  do sp <- Sharepoint.get_token RS office365 sp;
  run when (_debug self) (emit (LogDebug (ReprSharepoint (Sharepoint._url sp))));
  do site_ok <- Sharepoint.verify_url RS office365 sp;
  if negb site_ok then ret ReturnNoSite
  else
    do folder_failed <-
       (if truthy_opt (FilesConfig.out_folder fconf) then
          do added <- Sharepoint.add_folder RS office365 sp;
          ret (negb added)
        else ret false);
    if folder_failed then ret ReturnNoFolder
    else
      do all <- Sharepoint.upload_files RS office365 fs sp;
      ret (ReturnUploaded all).

Definition main (self : t) : M RS exit_point :=
  do spconf <- lift (SharepointConfig.__init__ config_yaml (_subsite self));
  do runtime <- lift (RuntimeConfig.__init__ config_yaml (_debug self));
  let fconf := FilesConfig.__init__ fs (_path self) (_files self)
                                    (_out self) in
  do verified <- lift (FilesConfig.verify fs fconf);
  let verify := fst verified in
  let fconf := snd verified in
  run when (_debug self)
           (run emit (LogDebug (ReprSharepointConfig spconf));
            run emit (LogDebug (ReprRuntimeConfig runtime));
            emit (LogDebug (ReprFilesConfig fconf)));
  match verify with
  | _ :: _ =>
      run log_errors verify;
      ret ReturnInvalid
  | [] =>
      run when (_debug self) (emit (LogDebug (ReprFilesConfig fconf)));
      try_except (upload self fconf spconf runtime)
                 (fun e => run emit (LogException e); ret (ReturnCaught e))
  end.

End Main.

End Uploader.

End Spup.

(** ** Concrete environments used by the examples *)

Module Fixtures.
Import Py Config Effects FS Sputil Spup.

(** [/home/u] holds [a.txt] and is the current directory; [/d] holds
    [b.txt] and [c.txt]. *)
Definition fs_home : filesystem :=
  {| root :=
       Dir 4096
         [("home", Dir 4096 [("u", Dir 4096 [("a.txt", File 10)])]);
          ("d", Dir 4096 [("b.txt", File 10); ("c.txt", File 7)])];
     cwd := ["home"; "u"] |}.

(** A configuration document as [config.py] reads it. *)
Definition conf_sp : yaml :=
  YMap [("sp", YMap [("tenant", YStr "t-id"); ("client", YStr "c-id");
                     ("site", YStr "https://example.sharepoint.com/sites/x");
                     ("secret", YStr "s3cret")]);
        ("runtime", YMap [("chunk_size", YInt 4)])].

(** The same document with the credentials under the key
    [sharepoint]. *)
Definition conf_sharepoint : yaml :=
  YMap [("sharepoint",
         YMap [("tenant", YStr "t-id"); ("client", YStr "c-id");
               ("site", YStr "https://example.sharepoint.com/sites/x");
               ("secret", YStr "s3cret")]);
        ("runtime", YMap [("chunk_size", YInt 4)])].

(** A site whose state is the list of files it holds.  It accepts
    everything except a file named [/d/c.txt], and reports progress in
    steps of four bytes with a shorter last step for a ten byte file. *)
Definition site : client (list string) :=
  {| acquire_token_for_app := fun s _ _ _ => (Ok tt, s);
     web_get := fun s _ => (Ok ("X", "https://example.sharepoint.com/sites/x"), s);
     folder_add := fun s _ name => (Ok ("/sites/x/Shared Documents/" ++ fmt name), s);
     create_upload_session := fun s _ _ file _ =>
       if file =? "/d/c.txt"
       then (([4%Z], Raise (ClientRequestException "quota exceeded")), s)
       else (([4%Z; 8%Z; 10%Z], Ok ("/sites/x/Shared Documents" ++ file)),
             (s ++ [file])%list) |}.

(** A session after [get_token], about to upload three files. *)
Definition session : Sharepoint.t :=
  {| Sharepoint._fconfig :=
       {| FilesConfig.path := Some "/d";
          FilesConfig.files := Some ["/d/b.txt"; "/d/c.txt"; "/home/u/a.txt"];
          FilesConfig.out_folder := Some "d" |};
     Sharepoint._spconfig :=
       {| SharepointConfig.tenant := YStr "t-id";
          SharepointConfig.client := YStr "c-id";
          SharepointConfig.site := YStr "https://example.sharepoint.com/sites/x";
          SharepointConfig.secret := YStr "s3cret";
          SharepointConfig.subsite := None |};
     Sharepoint._runtime :=
       {| RuntimeConfig.debug := false; RuntimeConfig.chunk_size := YInt 4 |};
     Sharepoint._url := YStr "https://example.sharepoint.com/sites/x" |}.

(** Command lines: no [-i] and no [-f]; [-i /d -f a.txt]; [-i /d]. *)
Definition no_input : Uploader.t :=
  {| Uploader._debug := false; Uploader._subsite := None;
     Uploader._path := None; Uploader._files := None;
     Uploader._out := None |}.

Definition unanchored_entry : Uploader.t :=
  {| Uploader._debug := false; Uploader._subsite := None;
     Uploader._path := Some "/d"; Uploader._files := Some "a.txt";
     Uploader._out := None |}.

Definition whole_directory : Uploader.t :=
  {| Uploader._debug := false; Uploader._subsite := None;
     Uploader._path := Some "/d"; Uploader._files := None;
     Uploader._out := None |}.

(** Sites that refuse the token, do not know the site, or refuse the
    folder; each behaves like [site] otherwise. *)
Definition no_token : client (list string) :=
  {| acquire_token_for_app := fun s _ _ _ =>
       (Raise (OtherException "invalid client secret"), s);
     web_get := web_get site;
     folder_add := folder_add site;
     create_upload_session := create_upload_session site |}.

Definition no_site : client (list string) :=
  {| acquire_token_for_app := acquire_token_for_app site;
     web_get := fun s _ => (Raise (ClientRequestException "404 Not Found"), s);
     folder_add := folder_add site;
     create_upload_session := create_upload_session site |}.

Definition no_folder : client (list string) :=
  {| acquire_token_for_app := acquire_token_for_app site;
     web_get := web_get site;
     folder_add := fun s _ _ =>
       (Raise (ClientRequestException "folder already exists"), s);
     create_upload_session := create_upload_session site |}.

(** A site that breaks the connection during every upload. *)
Definition broken_pipe : client (list string) :=
  {| acquire_token_for_app := acquire_token_for_app site;
     web_get := web_get site;
     folder_add := folder_add site;
     create_upload_session := fun s _ _ _ _ =>
       (([4%Z], Raise (OtherException "connection reset")), s) |}.

(** Command line [-i /home/u], and the same with [-d]. *)
Definition home_directory : Uploader.t :=
  {| Uploader._debug := false; Uploader._subsite := None;
     Uploader._path := Some "/home/u"; Uploader._files := None;
     Uploader._out := None |}.

Definition home_directory_debug : Uploader.t :=
  {| Uploader._debug := true; Uploader._subsite := Some "team";
     Uploader._path := Some "/home/u"; Uploader._files := None;
     Uploader._out := None |}.


(** A session whose second file is not there. *)
Definition session_missing : Sharepoint.t :=
  {| Sharepoint._fconfig :=
       {| FilesConfig.path := Some "/d";
          FilesConfig.files := Some ["/d/b.txt"; "/d/a.txt"; "/d/c.txt"];
          FilesConfig.out_folder := Some "d" |};
     Sharepoint._spconfig := Sharepoint._spconfig session;
     Sharepoint._runtime := Sharepoint._runtime session;
     Sharepoint._url := Sharepoint._url session |}.

End Fixtures.

(** ** Notions used to state the properties *)

Module Notions.
Import Py PosixPath Config Effects Sputil Spup.

(** A raw list with a leading, a trailing or a doubled comma. *)
Definition has_empty_segment (raw : string) : Prop :=
  (exists a, raw = "," ++ a) \/ (exists a, raw = a ++ ",")
  \/ (exists a b, raw = a ++ ",," ++ b).

(** Every character is in the class [[a-zA-Z0-9._-]]. *)
Fixpoint all_allowed (w : string) : bool :=
  match w with
  | EmptyString => true
  | String c w' => allowed_char c && all_allowed w'
  end.

(** No separator occurs in the string. *)
Fixpoint no_sep (s : string) : bool :=
  match s with
  | EmptyString => true
  | String c s' => negb (Ascii.eqb c "/") && no_sep s'
  end.

(** A directory entry name: not empty, not [.] or [..], no separator. *)
Definition is_name (c : string) : bool :=
  negb (c =? "") && negb (c =? ".") && negb (c =? "..") && no_sep c.

(** The current directory is given by entry names. *)
Definition cwd_names (fs : FS.filesystem) : Prop :=
  forallb is_name (FS.cwd fs) = true.

(** The value at [ns.key] of a document made of nested mappings. *)
Definition lookup2 (conf : yaml) (ns key : string) : option yaml :=
  match conf with
  | YMap top =>
      match FS.assoc ns top with
      | Some (YMap m) => FS.assoc key m
      | _ => None
      end
  | _ => None
  end.

(** The bar as redrawn [k] times, advanced by [z] each time. *)
Fixpoint bars (z : Z) (pbar : tqdm) (k : nat) : list event :=
  match k with
  | O => []
  | S k' =>
      let pbar' := {| total := total pbar; n := n pbar + z |} in
      Progress pbar' :: bars z pbar' k'
  end.

(** The errors of all checks of [verify], in the order it collects
    them, before empty strings are filtered out. *)
Definition checks (fs : FS.filesystem) (self : FilesConfig.t) : list string :=
  ((if negb (truthy_opt (FilesConfig.path self))
       && negb (truthy_list (FilesConfig.files self))
    then ["at least one of -i or -f must be present"] else [])
     ++ FilesConfig._verify_path fs self
     ++ FilesConfig._verify_files fs self
     ++ FilesConfig._verify_out_folder self)%list.


(** The character occurs in the string. *)
Fixpoint contains (c : ascii) (s : string) : bool :=
  match s with
  | EmptyString => false
  | String x s' => Ascii.eqb x c || contains c s'
  end.

(** The first of [keys] that the mapping lacks. *)
Definition first_absent (keys : list string) (m : list (string * yaml))
  : option string :=
  find (fun k => match FS.assoc k m with None => true | Some _ => false end)
       keys.

(** The url of the site or of its subsite. *)
Definition target_url (site : string) (subsite : option string) : string :=
  if truthy_opt subsite then site ++ "/" ++ fmt subsite else site.

(** The url that [get_token] computes, or the exception of the
    concatenation. *)
Definition session_url (spc : SharepointConfig.t) : result yaml :=
  if truthy_opt (SharepointConfig.subsite spc) then
    match str_add (SharepointConfig.site spc) "/" with
    | Ok u => str_add u (fmt (SharepointConfig.subsite spc))
    | Raise e => Raise e
    end
  else Ok (SharepointConfig.site spc).


Definition is_debug (e : event) : bool :=
  match e with
  | LogDebug _ => true
  | _ => false
  end.

(** The same command line with another [--debug]. *)
Definition with_debug (d : bool) (self : Uploader.t) : Uploader.t :=
  {| Uploader._debug := d;
     Uploader._subsite := Uploader._subsite self;
     Uploader._path := Uploader._path self;
     Uploader._files := Uploader._files self;
     Uploader._out := Uploader._out self |}.

End Notions.

(** ** Properties *)

Import Py PosixPath Config Effects Sputil Spup Notions.

(** *** Strings and paths *)

Lemma truthy_true_iff (s : string) : truthy s = true <-> s <> "".
Proof.
  unfold truthy. destruct (String.eqb_spec s ""); simpl; split; congruence.
Qed.

Lemma append_empty_r (s : string) : s ++ "" = s.
Proof. induction s as [|c s IH]; simpl; [reflexivity | now rewrite IH]. Qed.

Lemma append_assoc (a b c : string) : (a ++ b) ++ c = a ++ b ++ c.
Proof. induction a as [|x a IH]; simpl; [reflexivity | now rewrite IH]. Qed.

Lemma split_not_nil (sep : ascii) (s : string) : split sep s <> [].
Proof.
  destruct s as [|c s]; simpl; [discriminate|].
  destruct (Ascii.eqb c sep); [discriminate|].
  destruct (split sep s); discriminate.
Qed.

(** Splitting distributes over a separator. *)
Lemma split_app_sep (sep : ascii) (a b : string) :
  split sep (a ++ String sep b) = (split sep a ++ split sep b)%list.
Proof.
  induction a as [|c a IH]; simpl.
  - now rewrite Ascii.eqb_refl.
  - destruct (Ascii.eqb c sep); [now rewrite IH|].
    rewrite IH. destruct (split sep a) as [|w ws] eqn:E; [|reflexivity].
    now apply split_not_nil in E.
Qed.

Lemma endswith_sep_inv (p : string) :
  endswith_sep p = true -> exists a, p = a ++ "/".
Proof.
  induction p as [|c p IH]; simpl; [discriminate|].
  destruct p as [|c' p'].
  - intros H. apply Ascii.eqb_eq in H. subst c. now exists "".
  - intros H. destruct (IH H) as [a Ha]. exists (String c a).
    simpl. now rewrite <- Ha.
Qed.

Lemma endswith_sep_app (a : string) : endswith_sep (a ++ "/") = true.
Proof.
  induction a as [|c a IH]; [reflexivity|].
  simpl. destruct (a ++ "/") eqn:E; [|exact IH].
  destruct a; discriminate.
Qed.

(** Joining a non-empty directory with the empty name gives a path with
    a trailing separator. *)
Lemma join_empty_endswith_sep (p : string) :
  truthy p = true -> endswith_sep (join p "") = true.
Proof.
  intros Hp. unfold join. simpl. rewrite Hp. simpl.
  destruct (endswith_sep p) eqn:E.
  - now rewrite append_empty_r.
  - apply endswith_sep_app.
Qed.

(** *** The file system *)

Lemma exists_empty (fs : FS.filesystem) : FS.exists_ fs "" = false.
Proof. reflexivity. Qed.

Lemma step_empty_is_dir (r : FS.node) (cur : option (list string))
      (loc : list string) :
  FS.step r cur "" = Some loc ->
  exists sz es, FS.walk r loc = Some (FS.Dir sz es).
Proof.
  unfold FS.step. destruct cur as [here|]; [|discriminate].
  destruct (FS.walk r here) as [[sz|sz es]|] eqn:E; try discriminate.
  simpl. intros H. injection H as <-. now exists sz, es.
Qed.

(** A path with a trailing separator names a directory or nothing. *)
Lemma isfile_trailing_sep (fs : FS.filesystem) (p : string) :
  endswith_sep p = true -> FS.isfile fs p = false.
Proof.
  intros H. destruct (endswith_sep_inv p H) as [a ->].
  unfold FS.isfile, FS.resolve, FS.locate.
  destruct (negb (truthy (a ++ "/"))); [reflexivity|].
  unfold sep. rewrite split_app_sep. simpl. rewrite fold_left_app. simpl.
  match goal with
  | |- context [FS.step ?r ?cur ""] => destruct (FS.step r cur "") as [loc|] eqn:E
  end; [|reflexivity].
  destruct (step_empty_is_dir _ _ _ E) as (sz & es & ->). reflexivity.
Qed.

(** *** Validation *)

Section Validation.

Variable fs : FS.filesystem.

(** [verify] either reports errors and returns the request as it was,
    or reports none and returns what [_fix_paths] made of it. *)
Lemma verify_cases (self : FilesConfig.t) :
  (exists errs, errs <> [] /\ FilesConfig.verify fs self = Ok (errs, self))
  \/ (exists r, FilesConfig.verify fs self = r /\
                FilesConfig._fix_paths fs self = match r with
                                                 | Ok (_, self') => Ok self'
                                                 | Raise e => Raise e
                                                 end /\
                match r with Ok (errs, _) => errs = [] | Raise _ => True end).
Proof.
  unfold FilesConfig.verify.
  match goal with
  | |- context [filter truthy ?l] => destruct (filter truthy l) as [|e errs]
  end.
  - right. destruct (FilesConfig._fix_paths fs self) as [self'|e];
      eexists; repeat split.
  - left. eexists; split; [|reflexivity]. discriminate.
Qed.

(** C2.  When [verify] returns a non-empty error list the request is
    returned exactly as it was given: path, file list and output folder
    name are untouched, since [_fix_paths] runs only on an empty list. *)
Theorem verify_errors_leave_request_unchanged
        (self self' : FilesConfig.t) (errs : list string) :
  FilesConfig.verify fs self = Ok (errs, self') ->
  errs <> [] ->
  self' = self.
Proof.
  intros Hv Hne.
  destruct (verify_cases self) as [(errs0 & _ & H) | (r & Hr & _ & Hempty)].
  - congruence.
  - subst r. rewrite Hv in Hempty. contradiction.
Qed.

(** An error computed for any entry survives to the result. *)
Lemma verify_reports (self : FilesConfig.t) (f e : string) (fl : list string) :
  FilesConfig.files self = Some fl ->
  In f fl ->
  In e (FilesConfig.verify_file fs self f) ->
  truthy e = true ->
  exists errs, FilesConfig.verify fs self = Ok (errs, self) /\ In e errs.
Proof.
  intros Hfl Hf He Ht.
  assert (Hin : In e (FilesConfig._verify_files fs self)).
  { unfold FilesConfig._verify_files. rewrite Hfl.
    apply in_flat_map. now exists f. }
  unfold FilesConfig.verify.
  match goal with
  | |- context [filter truthy ?l] =>
      assert (Hl : In e (filter truthy l))
  end.
  { apply filter_In. split; [|exact Ht].
    apply in_or_app. left. apply in_or_app. right. exact Hin. }
  match goal with
  | |- context [filter truthy ?l] => destruct (filter truthy l) as [|e0 errs]
  end; [contradiction|].
  eexists. split; [reflexivity | exact Hl].
Qed.

(** The empty entry is always in error; which of the three messages it
    gets depends on the directory given. *)
Lemma verify_file_empty (self : FilesConfig.t) :
  exists e,
    FilesConfig.verify_file fs self "" = [e] /\
    match FilesConfig.path self with
    | Some p =>
        if truthy p then
          if FS.exists_ fs (join p "") then e = " is not a file"
          else e = " does not exist on path " ++ p
        else e = " does not exist"
    | None => e = " does not exist"
    end.
Proof.
  unfold FilesConfig.verify_file. rewrite exists_empty. simpl.
  destruct (FilesConfig.path self) as [p|]; [|eexists; split; reflexivity].
  destruct (truthy p) eqn:Hp; simpl; [|eexists; split; reflexivity].
  destruct (FS.exists_ fs (join p "")) eqn:He; simpl;
    [|eexists; split; reflexivity].
  rewrite (isfile_trailing_sep fs _ (join_empty_endswith_sep p Hp)). simpl.
  eexists; split; reflexivity.
Qed.

(** X1.  With neither a directory nor a file list (each absent or
    empty), validation fails with the error [at least one of -i or -f
    must be present] and the request is returned as it was. *)
Lemma verify_needs_input (self : FilesConfig.t) :
  truthy_opt (FilesConfig.path self) = false ->
  truthy_list (FilesConfig.files self) = false ->
  exists errs,
    FilesConfig.verify fs self = Ok (errs, self)
    /\ In "at least one of -i or -f must be present" errs.
Proof.
  intros Hp Hf. unfold FilesConfig.verify. rewrite Hp, Hf. cbn [negb andb].
  match goal with
  | |- context [filter truthy ?l] =>
      assert (Hl : In "at least one of -i or -f must be present"
                      (filter truthy l))
  end.
  { apply filter_In. split; [|reflexivity]. simpl. now left. }
  match goal with
  | |- context [filter truthy ?l] => destruct (filter truthy l) as [|e0 errs]
  end; [contradiction|].
  eexists. split; [reflexivity | exact Hl].
Qed.

(** *** Absolute paths are left alone by a second normalization *)

Lemma join_isabs_r (a x : string) : isabs x = true -> join a x = x.
Proof. unfold join, isabs. now intros ->. Qed.

Lemma prefix_sep_cons (r : string) : String.prefix "/" (String "/" r) = true.
Proof.
  cbn [String.prefix]. destruct (Ascii.ascii_dec "/" "/"); [|contradiction].
  now destruct r.
Qed.

Lemma join_isabs_l (a x : string) : isabs a = true -> isabs (join a x) = true.
Proof.
  unfold join, isabs, startswith. intros Ha.
  destruct (String.prefix "/" x) eqn:Hx; [exact Hx|].
  destruct a as [|c a]; [discriminate|].
  assert (Hc : c = "/"%char).
  { cbn [String.prefix] in Ha.
    destruct (Ascii.ascii_dec "/" c); [congruence | discriminate]. }
  subst c.
  destruct (negb (truthy (String "/" a)) || endswith_sep (String "/" a));
    cbn [append]; apply prefix_sep_cons.
Qed.

Lemma normpath_isabs (p : string) : isabs p = true -> isabs (normpath p) = true.
Proof.
  unfold isabs, startswith, normpath, initial_slashes, startswith.
  intros Hp. rewrite Hp.
  destruct p as [|c p]; [discriminate|]. cbn [truthy String.eqb negb].
  destruct (String.prefix "//" (String c p) && negb (String.prefix "///" (String c p)));
    cbn [append]; unfold truthy; cbn [String.eqb negb]; apply prefix_sep_cons.
Qed.

Lemma abspath_isabs (p : string) : isabs (FS.abspath fs p) = true.
Proof.
  unfold FS.abspath, abspath. apply normpath_isabs.
  destruct (isabs p) eqn:Hp; [exact Hp|].
  apply join_isabs_l. apply prefix_sep_cons.
Qed.

Lemma local_path_isabs (self : FilesConfig.t) :
  isabs (FilesConfig.local_path fs self) = true.
Proof.
  unfold FilesConfig.local_path.
  destruct (FilesConfig.path self) as [p|]; [destruct (truthy p)|];
    apply abspath_isabs.
Qed.

Lemma map_join_isabs (base : string) (l : list string) :
  forallb isabs l = true -> map (join base) l = l.
Proof.
  induction l as [|x l IH]; [reflexivity|]. simpl. intros H.
  apply andb_true_iff in H. destruct H as [Hx Hl].
  now rewrite (join_isabs_r base x Hx), (IH Hl).
Qed.

(** What [_fix_paths] leaves behind: the directory and the folder name
    as they were, and a list of absolute paths, which is either the
    given entries joined to the base or the regular files found by
    listing the base. *)
Lemma fix_paths_result (self self' : FilesConfig.t) :
  FilesConfig._fix_paths fs self = Ok self' ->
  FilesConfig.path self' = FilesConfig.path self
  /\ FilesConfig.out_folder self' = FilesConfig.out_folder self
  /\ exists l,
      FilesConfig.files self' = Some l
      /\ forallb isabs l = true
      /\ ((l <> [] /\ truthy_list (FilesConfig.files self) = true
           /\ FilesConfig.files self' =
              option_map (map (join (FilesConfig.local_path fs self)))
                         (FilesConfig.files self))
          \/ (truthy_list (FilesConfig.files self) = false
              /\ exists names,
                  FS.listdir fs (FilesConfig.local_path fs self) = Ok names
                  /\ l = filter (FS.isfile fs)
                               (map (join (FilesConfig.local_path fs self)) names))).
Proof.
  unfold FilesConfig._fix_paths.
  pose proof (local_path_isabs self) as Habs.
  set (base := FilesConfig.local_path fs self) in *.
  assert (Hall : forall l, forallb isabs (map (join base) l) = true).
  { induction l as [|x l IH]; [reflexivity|]. simpl.
    now rewrite (join_isabs_l base x Habs), IH. }
  assert (Hfilter : forall l, forallb isabs l = true ->
                              forallb isabs (filter (FS.isfile fs) l) = true).
  { induction l as [|x l IH]; [reflexivity|]. simpl. intros H.
    apply andb_true_iff in H. destruct H as [Hx Hl].
    destruct (FS.isfile fs x); simpl; [rewrite Hx|]; auto. }
  destruct (FilesConfig.files self) as [[|x xs]|] eqn:Hfiles.
  - destruct (FS.listdir fs base) as [names|e]; [|discriminate].
    intros [= <-]. simpl. repeat split. eexists. split; [reflexivity|].
    split; [apply Hfilter, Hall|]. right. split; [reflexivity|].
    now exists names.
  - intros [= <-]. simpl. repeat split. eexists. split; [reflexivity|].
    split; [apply (Hall (x :: xs))|]. left. repeat split. discriminate.
  - destruct (FS.listdir fs base) as [names|e]; [|discriminate].
    intros [= <-]. simpl. repeat split. eexists. split; [reflexivity|].
    split; [apply Hfilter, Hall|]. right. split; [reflexivity|].
    now exists names.
Qed.

(** X9.  After a successful [verify], a further [verify] never changes
    the file list: an absolute entry joined to the base is itself, and
    listing the same directory again finds the same files. *)
Lemma second_verify_keeps_files
      (self self1 self2 : FilesConfig.t) (errs : list string) :
  FilesConfig.verify fs self = Ok ([], self1) ->
  FilesConfig.verify fs self1 = Ok (errs, self2) ->
  FilesConfig.files self2 = FilesConfig.files self1.
Proof.
  intros H1 H2.
  destruct (verify_cases self) as [(e1 & Hne & E) | (r & Hr & Hfix & _)].
  { rewrite H1 in E. injection E as <- _. contradiction. }
  subst r. rewrite H1 in Hfix.
  destruct (fix_paths_result _ _ Hfix) as (Hpath & _ & l & Hl & Habs & Horigin).
  destruct (verify_cases self1) as [(e2 & _ & E) | (r & Hr & Hfix2 & _)].
  { rewrite H2 in E. now injection E as _ ->. }
  subst r. rewrite H2 in Hfix2. revert Hfix2.
  unfold FilesConfig._fix_paths.
  assert (Hbase : FilesConfig.local_path fs self1 = FilesConfig.local_path fs self).
  { unfold FilesConfig.local_path. now rewrite Hpath. }
  rewrite Hbase, Hl. destruct l as [|y ys].
  - destruct Horigin as [(Hne & _) | (_ & names & Hnames & Hempty)];
      [contradiction|].
    rewrite Hnames. intros [= <-]. cbn [FilesConfig.files].
    now rewrite <- Hempty.
  - intros [= <-]. cbn [FilesConfig.files].
    f_equal. exact (map_join_isabs _ (y :: ys) Habs).
Qed.

End Validation.

(** *** Paths that resolve, and their absolute form *)

Lemma is_name_inv (c : string) :
  is_name c = true ->
  (c =? "") = false /\ (c =? ".") = false /\ (c =? "..") = false
  /\ no_sep c = true.
Proof.
  unfold is_name. intros H.
  repeat (apply andb_true_iff in H; destruct H as [H ?]).
  repeat match goal with
         | H : negb _ = true |- _ => apply negb_true_iff in H
         end.
  auto.
Qed.

Lemma is_name_no_sep (c : string) : is_name c = true -> no_sep c = true.
Proof. intros H. now apply is_name_inv in H. Qed.

Lemma split_no_sep (s : string) : no_sep s = true -> split "/" s = [s].
Proof.
  induction s as [|c s IH]; [reflexivity|]. cbn [no_sep split]. intros H.
  apply andb_true_iff in H. destruct H as [Hc Hs].
  apply negb_true_iff in Hc. rewrite Hc. now rewrite (IH Hs).
Qed.

Lemma split_parts_no_sep (s : string) : forallb no_sep (split "/" s) = true.
Proof.
  induction s as [|c s IH]; [reflexivity|]. cbn [split].
  destruct (Ascii.eqb c "/") eqn:Hc; [exact IH|].
  destruct (split "/" s) as [|w ws]; simpl in *; rewrite Hc; simpl; auto.
Qed.

Lemma concat_cons2 (x y : string) (l : list string) :
  String.concat "/" (x :: y :: l) = x ++ String "/" (String.concat "/" (y :: l)).
Proof. reflexivity. Qed.

Lemma split_concat_names (L : list string) :
  forallb is_name L = true -> L <> [] -> split "/" (String.concat "/" L) = L.
Proof.
  induction L as [|x L IH]; [contradiction|]. intros H _.
  cbn [forallb] in H. apply andb_true_iff in H. destruct H as [Hx HL].
  destruct L as [|y L].
  - apply split_no_sep, is_name_no_sep, Hx.
  - rewrite concat_cons2, split_app_sep.
    rewrite (split_no_sep x (is_name_no_sep x Hx)).
    rewrite IH; [reflexivity | exact HL | discriminate].
Qed.

Lemma endswith_sep_app_r (a b : string) :
  b <> "" -> endswith_sep (a ++ b) = endswith_sep b.
Proof.
  intros Hb. induction a as [|c a IH]; [reflexivity|].
  cbn [append endswith_sep]. destruct (a ++ b) eqn:E; [|exact IH].
  destruct a; [simpl in E; contradiction | discriminate].
Qed.

Lemma name_not_endswith_sep (c : string) :
  no_sep c = true -> endswith_sep c = false.
Proof.
  induction c as [|x c IH]; [reflexivity|]. cbn [no_sep endswith_sep].
  intros H. apply andb_true_iff in H. destruct H as [Hx Hc].
  destruct c; [now apply negb_true_iff in Hx | now apply IH].
Qed.

Lemma is_name_not_empty (c : string) : is_name c = true -> c <> "".
Proof. intros H ->. discriminate. Qed.

Lemma concat_names_shape (L : list string) :
  forallb is_name L = true -> L <> [] ->
  endswith_sep (String.concat "/" L) = false
  /\ exists c r, String.concat "/" L = String c r /\ Ascii.eqb c "/" = false.
Proof.
  induction L as [|x L IH]; [contradiction|]. intros H _.
  cbn [forallb] in H. apply andb_true_iff in H. destruct H as [Hx HL].
  pose proof (is_name_no_sep x Hx) as Hns.
  assert (Hhead : exists c r, x = String c r /\ Ascii.eqb c "/" = false).
  { destruct x as [|c r]; [discriminate|]. exists c, r. split; [reflexivity|].
    cbn [no_sep] in Hns. apply andb_true_iff in Hns.
    now apply negb_true_iff. }
  destruct L as [|y L].
  - split; [now apply name_not_endswith_sep | exact Hhead].
  - rewrite concat_cons2. destruct (IH HL) as [Hend _]; [discriminate|]. split.
    + rewrite endswith_sep_app_r; [|discriminate].
      change (String "/" (String.concat "/" (y :: L)))
        with ("/" ++ String.concat "/" (y :: L)).
      rewrite endswith_sep_app_r; [exact Hend|].
      destruct (IH HL) as (_ & c & r & -> & _); discriminate.
    + destruct Hhead as (c & r & -> & Hc). now exists c, (r ++ String "/" (String.concat "/" (y :: L))).
Qed.

Section Resolution.

Variable r : FS.node.

Lemma fold_step_none (comps : list string) :
  fold_left (FS.step r) comps None = None.
Proof. induction comps as [|c comps IH]; [reflexivity | exact IH]. Qed.

Lemma fold_step_some (comps : list string) (cur : option (list string))
      (L : list string) :
  fold_left (FS.step r) comps cur = Some L -> exists L0, cur = Some L0.
Proof.
  destruct cur as [L0|]; [now exists L0|]. now rewrite fold_step_none.
Qed.

Lemma forallb_removelast {A : Type} (f : A -> bool) (l : list A) :
  forallb f l = true -> forallb f (removelast l) = true.
Proof.
  induction l as [|x l IH]; [reflexivity|]. cbn [forallb removelast].
  intros H. apply andb_true_iff in H. destruct H as [Hx Hl].
  destruct l as [|y l]; [reflexivity|]. cbn [forallb].
  rewrite Hx. exact (IH Hl).
Qed.

Lemma last_name (l : list string) :
  forallb is_name l = true -> (last l "" =? "..") = false.
Proof.
  induction l as [|x l IH]; [reflexivity|]. cbn [forallb]. intros H.
  apply andb_true_iff in H. destruct H as [Hx Hl].
  destruct l as [|y l]; [|exact (IH Hl)]. cbn [last].
  now destruct (is_name_inv x Hx) as (_ & _ & Hdd & _).
Qed.

(** One step of resolution that succeeds is the step [normpath] takes
    on an absolute path. *)
Lemma step_norm_step (k : nat) (here L : list string) (c : string) :
  forallb is_name here = true ->
  no_sep c = true ->
  FS.step r (Some here) c = Some L ->
  norm_step (S k) here c = L /\ forallb is_name L = true.
Proof.
  intros Hhere Hc. unfold FS.step, norm_step.
  destruct (FS.walk r here) as [[sz|sz es]|]; try discriminate.
  destruct ((c =? "") || (c =? ".")) eqn:Hdot; [now intros [= <-]|].
  apply orb_false_iff in Hdot. destruct Hdot as [He Hd].
  destruct (c =? "..") eqn:Hdd.
  - intros [= <-]. cbn [negb Nat.eqb andb orb].
    rewrite (last_name here Hhere), andb_false_r.
    split; [reflexivity | now apply forallb_removelast].
  - destruct (FS.assoc c es); [|discriminate]. intros [= <-]. cbn [negb orb].
    split; [reflexivity|]. rewrite forallb_app, Hhere. cbn [forallb andb].
    unfold is_name. now rewrite He, Hd, Hdd, Hc.
Qed.

Lemma fold_step_norm_step (k : nat) (comps : list string)
      (L0 L : list string) :
  forallb is_name L0 = true ->
  forallb no_sep comps = true ->
  fold_left (FS.step r) comps (Some L0) = Some L ->
  fold_left (norm_step (S k)) comps L0 = L /\ forallb is_name L = true.
Proof.
  revert L0. induction comps as [|c comps IH]; intros L0 H0 Hc.
  - now intros [= <-].
  - cbn [fold_left forallb] in *. apply andb_true_iff in Hc.
    destruct Hc as [Hc Hcs]. intros H.
    destruct (fold_step_some _ _ _ H) as [L1 H1]. rewrite H1 in H.
    destruct (step_norm_step k _ _ _ H0 Hc H1) as [-> HL1].
    exact (IH L1 HL1 Hcs H).
Qed.

(** Names are appended by [normpath]. *)
Lemma fold_norm_step_names (k : nat) (N L0 : list string) :
  forallb is_name N = true ->
  fold_left (norm_step k) N L0 = (L0 ++ N)%list.
Proof.
  revert L0. induction N as [|c N IH]; intros L0 H.
  - now rewrite app_nil_r.
  - cbn [forallb fold_left] in *. apply andb_true_iff in H.
    destruct H as [Hc HN]. rewrite (IH _ HN).
    assert (Hstep : norm_step k L0 c = (L0 ++ [c])%list).
    { unfold norm_step.
      destruct (is_name_inv c Hc) as (He & Hd & Hdd & _).
      now rewrite He, Hd, Hdd. }
    now rewrite Hstep, <- app_assoc.
Qed.

Lemma walk_app (n : FS.node) (L1 L2 : list string) :
  FS.walk n (L1 ++ L2)
  = match FS.walk n L1 with
    | Some n' => FS.walk n' L2
    | None => None
    end.
Proof.
  revert n. induction L1 as [|c L1 IH]; intros n; [reflexivity|].
  cbn [app FS.walk]. destruct n as [sz|sz es]; [reflexivity|].
  destruct (FS.assoc c es); [apply IH | reflexivity].
Qed.

(** A location that exists is reached by following its names. *)
Lemma fold_step_names (L2 L1 : list string) (n : FS.node) :
  forallb is_name L2 = true ->
  FS.walk r (L1 ++ L2) = Some n ->
  fold_left (FS.step r) L2 (Some L1) = Some (L1 ++ L2)%list.
Proof.
  revert L1. induction L2 as [|c L2 IH]; intros L1 H Hw.
  - now rewrite app_nil_r.
  - cbn [forallb fold_left] in *. apply andb_true_iff in H.
    destruct H as [Hc HL2].
    assert (Hstep : FS.step r (Some L1) c = Some (L1 ++ [c])%list).
    { rewrite walk_app in Hw. unfold FS.step.
      destruct (FS.walk r L1) as [[sz|sz es]|]; try discriminate.
      cbn [FS.walk] in Hw.
      destruct (is_name_inv c Hc) as (He & Hd & Hdd & _).
      rewrite He, Hd, Hdd. cbn [orb].
      destruct (FS.assoc c es); [reflexivity | discriminate]. }
    rewrite Hstep.
    replace (L1 ++ c :: L2)%list with ((L1 ++ [c]) ++ L2)%list in *
      by now rewrite <- app_assoc.
    now apply IH.
Qed.

(** An empty component is passed in a directory and nowhere else. *)
Lemma step_empty (here : list string) :
  FS.step r (Some here) ""
  = match FS.walk r here with
    | Some (FS.Dir _ _) => Some here
    | _ => None
    end.
Proof.
  unfold FS.step. destruct (FS.walk r here) as [[sz|sz es]|]; reflexivity.
Qed.

Lemma fold_step_after_empty (comps : list string) (here : list string) :
  comps <> [] ->
  fold_left (FS.step r) comps (FS.step r (Some here) "")
  = fold_left (FS.step r) comps (Some here).
Proof.
  intros Hne. rewrite step_empty.
  destruct (FS.walk r here) as [[sz|sz es]|] eqn:Hw; try reflexivity;
    rewrite fold_step_none; destruct comps as [|c comps]; try contradiction;
    cbn [fold_left]; unfold FS.step at 2; rewrite Hw;
    now rewrite fold_step_none.
Qed.

End Resolution.

Lemma prefix_sep (s : string) :
  String.prefix "/" s
  = match s with
    | String c _ => Ascii.eqb c "/"
    | EmptyString => false
    end.
Proof.
  destruct s as [|c s]; [reflexivity|]. cbn [String.prefix].
  destruct (Ascii.ascii_dec "/" c) as [<-|Hc].
  - now destruct s.
  - symmetry. apply Ascii.eqb_neq. congruence.
Qed.

Lemma prefix_sep_sep (s : string) :
  String.prefix "//" (String "/" s) = String.prefix "/" s.
Proof.
  cbn [String.prefix]. destruct (Ascii.ascii_dec "/" "/"); [|contradiction].
  destruct s; reflexivity.
Qed.

Lemma initial_slashes_sep (s : string) :
  String.prefix "/" s = false -> initial_slashes (String "/" s) = 1.
Proof.
  intros H. unfold initial_slashes, startswith.
  now rewrite prefix_sep_cons, prefix_sep_sep, H.
Qed.

Lemma initial_slashes_isabs (p : string) :
  isabs p = true -> initial_slashes p = 1 \/ initial_slashes p = 2.
Proof.
  unfold isabs, initial_slashes. intros ->.
  destruct (startswith "//" p && negb (startswith "///" p)); auto.
Qed.

(** [normpath] of an absolute path, from the components it keeps. *)
Lemma normpath_isabs_eq (p : string) (k : nat) :
  isabs p = true ->
  initial_slashes p = S k ->
  normpath p
  = (if Nat.eqb k 0 then "/" else "//")
      ++ String.concat "/" (fold_left (norm_step (S k)) (split "/" p) []).
Proof.
  intros Hp Hk. unfold normpath. rewrite Hk.
  destruct p as [|c p]; [discriminate|]. cbn [truthy String.eqb negb].
  unfold sep. destruct k as [|k]; reflexivity.
Qed.

Section Rebase.

Variable fs : FS.filesystem.
Hypothesis Hcwd : cwd_names fs.

Lemma getcwd_join (p : string) :
  isabs p = false ->
  let X := join (FS.getcwd fs) p in
  isabs X = true /\ initial_slashes X = 1
  /\ fold_left (norm_step 1) (split "/" X) []
     = fold_left (norm_step 1) (split "/" p) (FS.cwd fs).
Proof.
  intros Hp X. unfold X, join, FS.getcwd. unfold isabs, startswith in *.
  rewrite Hp. destruct (FS.cwd fs) as [|x L] eqn:Hc.
  - cbn [String.concat append endswith_sep]. unfold truthy.
    cbn [String.eqb negb orb]. rewrite Ascii.eqb_refl. cbn [append].
    rewrite prefix_sep_cons. split; [reflexivity|].
    split; [now apply initial_slashes_sep | reflexivity].
  - destruct (concat_names_shape (x :: L)) as (Hend & c & rest & Hshape & Hne);
      [unfold cwd_names in Hcwd; now rewrite Hc in Hcwd | discriminate |].
    cbn [append]. unfold truthy. cbn [String.eqb negb orb].
    assert (He : endswith_sep (String "/" (String.concat "/" (x :: L))) = false).
    { rewrite Hshape in *. exact Hend. }
    rewrite He. cbn [append]. rewrite prefix_sep_cons.
    split; [reflexivity|]. split.
    + apply initial_slashes_sep. rewrite Hshape. cbn [append].
      now rewrite prefix_sep.
    + cbn [split]. rewrite Ascii.eqb_refl, split_app_sep.
      rewrite split_concat_names;
        [|unfold cwd_names in Hcwd; now rewrite Hc in Hcwd | discriminate].
      cbn [fold_left]. unfold norm_step at 2. cbn [String.eqb orb].
      rewrite fold_left_app. f_equal.
      rewrite fold_norm_step_names;
        [reflexivity | unfold cwd_names in Hcwd; now rewrite Hc in Hcwd].
Qed.

(** The absolute form of a path that resolves: the names of the
    location it leads to, after one or two slashes. *)
Lemma abspath_locate (p : string) (L : list string) :
  FS.locate fs p = Some L ->
  forallb is_name L = true
  /\ (FS.abspath fs p = "/" ++ String.concat "/" L
      \/ FS.abspath fs p = "//" ++ String.concat "/" L).
Proof.
  unfold FS.locate, FS.abspath, abspath.
  destruct (truthy p) eqn:Ht; [|discriminate]. cbn [negb].
  destruct (isabs p) eqn:Hp; unfold sep.
  - intros H.
    destruct (fold_step_norm_step (FS.root fs) 0 _ [] _ eq_refl
                (split_parts_no_sep p) H) as [_ HL].
    split; [exact HL|].
    destruct (initial_slashes_isabs p Hp) as [Hk|Hk];
      rewrite (normpath_isabs_eq p _ Hp Hk); cbn [Nat.eqb].
    + left. f_equal. f_equal.
      now destruct (fold_step_norm_step (FS.root fs) 0 _ [] _ eq_refl
                      (split_parts_no_sep p) H).
    + right. f_equal. f_equal.
      now destruct (fold_step_norm_step (FS.root fs) 1 _ [] _ eq_refl
                      (split_parts_no_sep p) H).
  - intros H.
    destruct (fold_step_norm_step (FS.root fs) 0 _ _ _ Hcwd
                (split_parts_no_sep p) H) as [Hnorm HL].
    split; [exact HL|]. left.
    destruct (getcwd_join p Hp) as (Habs & Hk & Hfold).
    rewrite (normpath_isabs_eq _ _ Habs Hk). cbn [Nat.eqb].
    now rewrite Hfold, Hnorm.
Qed.

Lemma isabs_app (p x : string) : truthy p = true -> isabs (p ++ x) = isabs p.
Proof.
  destruct p as [|c p]; [discriminate|]. intros _.
  unfold isabs, startswith. cbn [append]. now rewrite !prefix_sep.
Qed.

Lemma truthy_app (p x : string) : truthy p = true -> truthy (p ++ x) = true.
Proof. destruct p; [discriminate | reflexivity]. Qed.

(** Resolving [join(p, f)] for a relative [f] resolves [p] and goes on
    from there. *)
Lemma locate_join (p f : string) (L : list string) :
  FS.locate fs p = Some L ->
  isabs f = false ->
  FS.locate fs (join p f)
  = fold_left (FS.step (FS.root fs)) (split "/" f) (Some L).
Proof.
  unfold FS.locate. destruct (truthy p) eqn:Ht; [|discriminate].
  cbn [negb]. unfold sep. intros H Hf. unfold join.
  unfold isabs in Hf. rewrite Hf, Ht. cbn [negb orb].
  destruct (endswith_sep p) eqn:Hend.
  - destruct (endswith_sep_inv p Hend) as [a ->].
    rewrite (truthy_app _ f Ht), (isabs_app _ f Ht). cbn [negb].
    rewrite append_assoc. cbn [append].
    rewrite split_app_sep, fold_left_app in H |- *.
    cbn [split fold_left] in H.
    destruct (fold_left (FS.step (FS.root fs)) (split "/" a)
                (Some (if isabs (a ++ "/") then [] else FS.cwd fs)))
      as [L'|]; [|discriminate].
    rewrite step_empty in H.
    destruct (FS.walk (FS.root fs) L') as [[sz|sz es]|]; try discriminate.
    now injection H as ->.
  - rewrite (truthy_app _ ("/" ++ f) Ht), (isabs_app _ ("/" ++ f) Ht).
    cbn [negb append]. now rewrite split_app_sep, fold_left_app, H.
Qed.

(** The same for the absolute form of [p], when [p] is a directory. *)
Lemma locate_join_abspath (p f : string) (L : list string)
      (sz : Z) (es : list (string * FS.node)) :
  FS.locate fs p = Some L ->
  FS.walk (FS.root fs) L = Some (FS.Dir sz es) ->
  isabs f = false ->
  FS.locate fs (join (FS.abspath fs p) f)
  = fold_left (FS.step (FS.root fs)) (split "/" f) (Some L).
Proof.
  intros Hloc Hw Hf. destruct (abspath_locate p L Hloc) as [HL Habs].
  assert (Hroot : exists sz0 es0, FS.root fs = FS.Dir sz0 es0).
  { destruct L as [|x L'].
    - cbn in Hw. injection Hw as ->. now exists sz, es.
    - cbn [FS.walk] in Hw. destruct (FS.root fs) as [|sz0 es0];
        [discriminate | now exists sz0, es0]. }
  destruct Hroot as (sz0 & es0 & Hroot).
  assert (Hstep0 : FS.step (FS.root fs) (Some []) "" = Some []).
  { rewrite step_empty. cbn [FS.walk]. now rewrite Hroot. }
  assert (Hnames : fold_left (FS.step (FS.root fs)) L (Some []) = Some L).
  { exact (fold_step_names (FS.root fs) L [] _ HL Hw). }
  unfold join, FS.locate. unfold isabs in Hf. rewrite Hf. unfold sep.
  destruct L as [|x L'].
  - cbn [String.concat append] in Habs.
    destruct Habs as [-> | ->]; unfold truthy;
      cbn [String.eqb negb orb endswith_sep append];
      rewrite ?Ascii.eqb_refl; cbn [append negb orb String.eqb];
      unfold isabs, startswith; rewrite prefix_sep_cons;
      cbn [split]; rewrite ?Ascii.eqb_refl; cbn [fold_left];
      now rewrite ?Hstep0.
  - destruct (concat_names_shape (x :: L') HL) as (Hend & c & rest & Hshape & Hc);
      [discriminate|].
    assert (Hne : String.concat "/" (x :: L') <> "") by (rewrite Hshape; discriminate).
    destruct Habs as [-> | ->]; rewrite endswith_sep_app_r, Hend by exact Hne;
      unfold truthy; cbn [append String.eqb negb orb];
      unfold isabs, startswith; rewrite prefix_sep_cons;
      cbn [split]; rewrite ?Ascii.eqb_refl;
      rewrite split_app_sep, (split_concat_names _ HL) by discriminate;
      cbn [fold_left]; rewrite ?Hstep0, fold_left_app, Hnames; reflexivity.
Qed.

(** Anchoring a relative entry to the absolute form of a directory
    names the same node as anchoring it to the directory as given. *)
Lemma resolve_join_abspath (p f : string) :
  FS.isdir fs p = true ->
  isabs f = false ->
  FS.resolve fs (join (FS.abspath fs p) f) = FS.resolve fs (join p f).
Proof.
  unfold FS.isdir, FS.resolve. intros Hd Hf.
  destruct (FS.locate fs p) as [L|] eqn:Hloc; [|discriminate].
  destruct (FS.walk (FS.root fs) L) as [[sz|sz es]|] eqn:Hw; try discriminate.
  now rewrite (locate_join_abspath p f L sz es Hloc Hw Hf),
    (locate_join p f L Hloc Hf).
Qed.

(** A relative entry that exists names the same node when anchored to
    the absolute form of the current directory. *)
Lemma resolve_join_abspath_dot (f : string) :
  FS.exists_ fs f = true ->
  FS.resolve fs (join (FS.abspath fs ".") f) = FS.resolve fs f.
Proof.
  intros He. destruct (isabs f) eqn:Hf; [now rewrite join_isabs_r|].
  assert (Ht : truthy f = true).
  { destruct f; [discriminate | reflexivity]. }
  assert (Hf' : FS.locate fs f
                = fold_left (FS.step (FS.root fs)) (split "/" f)
                            (Some (FS.cwd fs))).
  { unfold FS.locate. now rewrite Ht, Hf. }
  assert (Hdir : exists sz es,
             FS.walk (FS.root fs) (FS.cwd fs) = Some (FS.Dir sz es)).
  { unfold FS.exists_, FS.resolve in He. rewrite Hf' in He.
    destruct (split "/" f) as [|c cs] eqn:Hs; [now apply split_not_nil in Hs|].
    cbn [fold_left] in He.
    destruct (FS.step (FS.root fs) (Some (FS.cwd fs)) c) as [L1|] eqn:Hstep;
      [|now rewrite fold_step_none in He].
    unfold FS.step in Hstep.
    destruct (FS.walk (FS.root fs) (FS.cwd fs)) as [[sz|sz es]|];
      try discriminate. now exists sz, es. }
  destruct Hdir as (sz & es & Hdir).
  assert (Hdot : FS.locate fs "." = Some (FS.cwd fs)).
  { unfold FS.locate. cbn. now rewrite Hdir. }
  unfold FS.resolve.
  now rewrite (locate_join_abspath "." f _ sz es Hdot Hdir Hf), Hf'.
Qed.

End Rebase.

Section Resolved.

Variable fs : FS.filesystem.
Hypothesis Hcwd : cwd_names fs.

Lemma truthy_app_r (a b : string) : truthy b = true -> truthy (a ++ b) = true.
Proof. destruct a; [trivial | reflexivity]. Qed.

Lemma verify_path_truthy (self : FilesConfig.t) (e : string) :
  In e (FilesConfig._verify_path fs self) -> truthy e = true.
Proof.
  unfold FilesConfig._verify_path.
  destruct (FilesConfig.path self) as [p|]; [|contradiction].
  destruct (truthy p); [|contradiction].
  destruct (negb (FS.exists_ fs p));
    [|destruct (negb (FS.isdir fs p)); [|contradiction]];
    intros [<-|[]]; now apply truthy_app_r.
Qed.

Lemma verify_file_truthy (self : FilesConfig.t) (f e : string) :
  In e (FilesConfig.verify_file fs self f) -> truthy e = true.
Proof.
  unfold FilesConfig.verify_file.
  destruct (negb (FS.exists_ fs f)).
  - destruct (FilesConfig.path self) as [p|].
    + destruct (truthy p && negb (FS.exists_ fs (join p f)));
        [|destruct (truthy p && negb (FS.isfile fs (join p f)));
          [|destruct (negb (truthy p)); [|contradiction]]];
        intros [<-|[]]; apply truthy_app_r; reflexivity.
    + intros [<-|[]]. now apply truthy_app_r.
  - destruct (negb (FS.isfile fs f)); [|contradiction].
    intros [<-|[]]. now apply truthy_app_r.
Qed.

Lemma filter_truthy_nil (l : list string) :
  filter truthy l = [] -> (forall e, In e l -> truthy e = true) -> l = [].
Proof.
  destruct l as [|x l]; [reflexivity|]. cbn [filter]. intros H Hall.
  rewrite (Hall x (or_introl eq_refl)) in H. discriminate.
Qed.

(** What an empty result of [verify] says about the checks. *)
Lemma verify_ok_inv (self self' : FilesConfig.t) :
  FilesConfig.verify fs self = Ok ([], self') ->
  FilesConfig._verify_path fs self = []
  /\ FilesConfig._verify_files fs self = []
  /\ FilesConfig._fix_paths fs self = Ok self'.
Proof.
  unfold FilesConfig.verify.
  match goal with
  | |- context [filter truthy ?l] => destruct (filter truthy l) eqn:Hfilter
  end; [|discriminate].
  destruct (FilesConfig._fix_paths fs self) as [s1|e]; [|discriminate].
  intros [= <-].
  rewrite !filter_app in Hfilter.
  apply app_eq_nil in Hfilter. destruct Hfilter as [Hfilter _].
  apply app_eq_nil in Hfilter. destruct Hfilter as [Hfilter Hfiles].
  apply app_eq_nil in Hfilter. destruct Hfilter as [_ Hpath].
  repeat split.
  - apply (filter_truthy_nil _ Hpath), verify_path_truthy.
  - apply (filter_truthy_nil _ Hfiles). intros e He.
    unfold FilesConfig._verify_files in He.
    destruct (FilesConfig.files self) as [fl|]; [|contradiction].
    apply in_flat_map in He. destruct He as (f & _ & He).
    exact (verify_file_truthy self f e He).
Qed.

(** X7.  After a successful [verify], every resolved entry is an
    existing regular file, except possibly an entry that was given as a
    relative path together with a directory and was accepted because it
    exists relative to the current directory. *)
Theorem resolved_entries_exist (self self' : FilesConfig.t) :
  FilesConfig.verify fs self = Ok ([], self') ->
  match FilesConfig.files self with
  | Some (x :: xs) =>
      FilesConfig.files self'
      = Some (map (join (FilesConfig.local_path fs self)) (x :: xs))
      /\ forall f,
          In f (x :: xs) ->
          FS.isfile fs (join (FilesConfig.local_path fs self) f) = true
          \/ (truthy_opt (FilesConfig.path self) = true
              /\ isabs f = false /\ FS.isfile fs f = true)
  | _ =>
      exists l,
        FilesConfig.files self' = Some l
        /\ forall f, In f l -> FS.isfile fs f = true
  end.
Proof.
  intros Hv. destruct (verify_ok_inv _ _ Hv) as (Hpath & Hfiles & Hfix).
  assert (Hlist : forall l,
             FS.listdir fs (FilesConfig.local_path fs self) = Ok l ->
             forall f, In f (filter (FS.isfile fs)
                               (map (join (FilesConfig.local_path fs self)) l)) ->
                       FS.isfile fs f = true).
  { intros l _ f Hin. now apply filter_In in Hin. }
  unfold FilesConfig._fix_paths in Hfix.
  destruct (FilesConfig.files self) as [[|x xs]|] eqn:Hgiven.
  - destruct (FS.listdir fs (FilesConfig.local_path fs self)) as [l|] eqn:Hl;
      [|discriminate].
    injection Hfix as <-. eexists. split; [reflexivity | exact (Hlist l eq_refl)].
  - injection Hfix as <-. split; [reflexivity|]. intros f Hin.
    assert (Hf : FilesConfig.verify_file fs self f = []).
    { unfold FilesConfig._verify_files in Hfiles. rewrite Hgiven in Hfiles.
      destruct (FilesConfig.verify_file fs self f) as [|e l] eqn:E;
        [reflexivity|].
      assert (Hin' : In e (flat_map (FilesConfig.verify_file fs self) (x :: xs))).
      { apply in_flat_map. exists f. split; [exact Hin|]. rewrite E. now left. }
      rewrite Hfiles in Hin'. contradiction. }
    unfold FilesConfig.verify_file in Hf.
    unfold FilesConfig._verify_path in Hpath.
    unfold FilesConfig.local_path.
    destruct (isabs f) eqn:Habs.
    { left. rewrite join_isabs_r by exact Habs.
      destruct (FS.exists_ fs f) eqn:He; cbn [negb] in Hf.
      - destruct (FS.isfile fs f); [reflexivity | discriminate].
      - destruct (FilesConfig.path self) as [p|]; [|discriminate].
        rewrite join_isabs_r in Hf by exact Habs.
        unfold FS.exists_ in He, Hf. unfold FS.isfile in Hf.
        destruct (FS.resolve fs f); [discriminate|].
        destruct (truthy p); discriminate. }
    destruct (FS.exists_ fs f) eqn:He; cbn [negb] in Hf.
    + destruct (FS.isfile fs f) eqn:Hfile; [|discriminate].
      destruct (FilesConfig.path self) as [p|].
      * destruct (truthy p) eqn:Ht.
        -- right. auto.
        -- left. unfold FS.isfile.
           now rewrite (resolve_join_abspath_dot fs Hcwd f He).
      * left. unfold FS.isfile.
        now rewrite (resolve_join_abspath_dot fs Hcwd f He).
    + destruct (FilesConfig.path self) as [p|]; [|discriminate].
      destruct (truthy p) eqn:Ht; [|discriminate]. cbn [andb negb] in Hf.
      destruct (FS.exists_ fs (join p f)); [|discriminate].
      destruct (FS.isfile fs (join p f)) eqn:Hfile; [|discriminate].
      cbn [negb] in Hpath.
      destruct (FS.exists_ fs p); [|discriminate].
      destruct (FS.isdir fs p) eqn:Hdir; [|discriminate].
      left. unfold FS.isfile in *.
      now rewrite (resolve_join_abspath fs Hcwd p f Hdir Habs).
  - destruct (FS.listdir fs (FilesConfig.local_path fs self)) as [l|] eqn:Hl;
      [|discriminate].
    injection Hfix as <-. eexists. split; [reflexivity | exact (Hlist l eq_refl)].
Qed.

End Resolved.

(** The hypothesis on the current directory holds in the example file
    system, and the statement applies to a whole-directory request. *)
Example resolved_entries_exist_whole_directory :
  cwd_names Fixtures.fs_home
  /\ exists l,
      l = ["/d/b.txt"; "/d/c.txt"]
      /\ forall f, In f l -> FS.isfile Fixtures.fs_home f = true.
Proof.
  split; [reflexivity|].
  pose proof (resolved_entries_exist Fixtures.fs_home eq_refl
                (FilesConfig.__init__ Fixtures.fs_home (Some "/d") None None)
                {| FilesConfig.path := Some "/d";
                   FilesConfig.files := Some ["/d/b.txt"; "/d/c.txt"];
                   FilesConfig.out_folder := Some "d" |}
                eq_refl) as (l & Hl & Hall).
  simpl in Hl. injection Hl as <-. eexists. split; [reflexivity | exact Hall].
Defined.

Lemma split_empty_segment (raw : string) :
  has_empty_segment raw -> truthy raw = true /\ In "" (split "," raw).
Proof.
  intros [[a ->] | [[a ->] | (a & b & ->)]].
  - split; [reflexivity | now left].
  - split.
    + destruct a; reflexivity.
    + rewrite split_app_sep. apply in_or_app. right. now left.
  - split.
    + destruct a; reflexivity.
    + change (a ++ ",," ++ b) with (a ++ String "," ("," ++ b)).
      rewrite split_app_sep. apply in_or_app. right. now left.
Qed.

(** C2, at a request with neither directory nor file list. *)
Lemma verify_errors_leave_request_unchanged_witness :
  let self := FilesConfig.__init__ Fixtures.fs_home None None (Some "ok") in
  exists errs self',
    FilesConfig.verify Fixtures.fs_home self = Ok (errs, self')
    /\ errs <> [] /\ self' = self.
Proof.
  intros self. eexists. eexists. split; [reflexivity|].
  split; [discriminate|].
  apply (verify_errors_leave_request_unchanged Fixtures.fs_home self self
           ["at least one of -i or -f must be present"]);
    [reflexivity | discriminate].
Defined.

(** C10, as stated, fails: with a directory given, the empty entry of
    ["b.txt,"] names the directory itself, which exists, so the error
    reported for it is [" is not a file"] and no "does not exist" error
    is reported at all. *)
Lemma empty_segment_error_is_not_a_file :
  let self := FilesConfig.__init__ Fixtures.fs_home (Some "/d") (Some "b.txt,")
                                   None in
  has_empty_segment "b.txt,"
  /\ FilesConfig.files self = Some ["b.txt"; ""]
  /\ FilesConfig.verify Fixtures.fs_home self = Ok ([" is not a file"], self)
  /\ ~ In " does not exist" [" is not a file"].
Proof.
  intros self. split; [right; left; now exists "b.txt"|].
  split; [reflexivity|]. split; [reflexivity|].
  intros [H|[]]. discriminate.
Qed.

(** C10, amended.  A raw file list with an empty segment is split into
    entries that include the empty string, and validation then fails
    without changing the request, with one error for the empty entry:
    [" does not exist"] when no directory was given,
    [" does not exist on path P"] when [join(P, "")] does not exist, and
    [" is not a file"] when it does. *)
Theorem empty_segment_fails_validation
        (fs : FS.filesystem) (path out : option string) (raw : string) :
  has_empty_segment raw ->
  let self := FilesConfig.__init__ fs path (Some raw) out in
  FilesConfig.files self = Some (split "," raw)
  /\ In "" (split "," raw)
  /\ exists errs e,
      FilesConfig.verify fs self = Ok (errs, self)
      /\ In e errs
      /\ FilesConfig.verify_file fs self "" = [e]
      /\ match path with
         | Some p =>
             if truthy p then
               if FS.exists_ fs (join p "") then e = " is not a file"
               else e = " does not exist on path " ++ p
             else e = " does not exist"
         | None => e = " does not exist"
         end.
Proof.
  intros Hraw self. destruct (split_empty_segment raw Hraw) as [Ht Hin].
  assert (Hfiles : FilesConfig.files self = Some (split "," raw)).
  { unfold self. simpl. now rewrite Ht. }
  split; [exact Hfiles|]. split; [exact Hin|].
  destruct (verify_file_empty fs self) as (e & He & Hkind).
  assert (Hte : truthy e = true).
  { simpl in Hkind. destruct path as [p|]; [destruct (truthy p)|];
      [destruct (FS.exists_ fs (join p ""))| |]; subst e; reflexivity. }
  destruct (verify_reports fs self "" e _ Hfiles Hin) as (errs & Hv & Hine);
    [rewrite He; now left | exact Hte |].
  exists errs, e. repeat split; assumption.
Qed.

Lemma empty_segment_fails_validation_witness :
  has_empty_segment "a.txt,"
  /\ exists errs e,
      FilesConfig.verify Fixtures.fs_home
        (FilesConfig.__init__ Fixtures.fs_home None (Some "a.txt,") None)
      = Ok (errs, FilesConfig.__init__ Fixtures.fs_home None (Some "a.txt,") None)
      /\ In e errs /\ e = " does not exist".
Proof.
  assert (H : has_empty_segment "a.txt,") by (right; left; now exists "a.txt").
  split; [exact H|].
  destruct (empty_segment_fails_validation Fixtures.fs_home None None "a.txt," H)
    as (_ & _ & errs & e & Hv & Hin & _ & He).
  exists errs, e. repeat split; assumption.
Defined.

(** C1.  The entry [a.txt] exists in the current directory [/home/u], so
    it passes the exists-as-is branch although the directory [/d] was
    given; [verify] returns no error and [_fix_paths] rewrites the entry
    to [/d/a.txt], which does not exist. *)
Theorem verified_entry_need_not_exist :
  let self := FilesConfig.__init__ Fixtures.fs_home (Some "/d") (Some "a.txt")
                                   None in
  FS.isfile Fixtures.fs_home "a.txt" = true
  /\ FS.exists_ Fixtures.fs_home (join "/d" "a.txt") = false
  /\ FilesConfig.verify Fixtures.fs_home self
     = Ok ([], {| FilesConfig.path := Some "/d";
                  FilesConfig.files := Some ["/d/a.txt"];
                  FilesConfig.out_folder := Some "d" |})
  /\ FS.isfile Fixtures.fs_home "/d/a.txt" = false.
Proof. repeat split. Qed.

(** C4.  On the request of [verified_entry_need_not_exist] the first
    [verify] succeeds and the second one, on the request it produced,
    returns an error. *)
Theorem second_verify_reports_error :
  let self := FilesConfig.__init__ Fixtures.fs_home (Some "/d") (Some "a.txt")
                                   None in
  exists self1,
    FilesConfig.verify Fixtures.fs_home self = Ok ([], self1)
    /\ FilesConfig.verify Fixtures.fs_home self1
       = Ok (["/d/a.txt does not exist on path /d"], self1).
Proof. eexists. split; reflexivity. Qed.

(** *** The output folder name *)

Lemma at_dollar_cons (c : ascii) (s : string) :
  at_dollar (String c s) = true -> String c s = newline.
Proof.
  unfold at_dollar. intros H. apply orb_true_iff in H.
  destruct H as [H|H]; apply String.eqb_eq in H; [discriminate | exact H].
Qed.

Lemma class_star_dollar_spec (s : string) :
  class_star_dollar s = true
  <-> exists w, all_allowed w = true /\ (s = w \/ s = w ++ newline).
Proof.
  split.
  - induction s as [|c s IH]; cbn [class_star_dollar].
    + intros _. exists "". auto.
    + destruct (allowed_char c && class_star_dollar s) eqn:Hcs.
      * intros _. apply andb_true_iff in Hcs. destruct Hcs as [Hc Hs].
        destruct (IH Hs) as (w & Hw & Hsw).
        exists (String c w). simpl. rewrite Hc, Hw. split; [reflexivity|].
        destruct Hsw as [-> | ->]; auto.
      * intros H. apply at_dollar_cons in H. exists "". rewrite H. auto.
  - intros (w & Hw & Hs). revert s Hs Hw.
    induction w as [|c w IH]; intros s Hs Hw.
    + destruct Hs as [-> | ->]; reflexivity.
    + simpl in Hw. apply andb_true_iff in Hw. destruct Hw as [Hc Hw].
      assert (Hrest : exists s', s = String c s' /\ (s' = w \/ s' = w ++ newline)).
      { destruct Hs as [-> | ->]; eexists; split; try reflexivity; auto. }
      destruct Hrest as (s' & -> & Hs'). cbn [class_star_dollar].
      now rewrite Hc, (IH s' Hs' Hw).
Qed.

(** What the compiled pattern accepts: a non-empty word over the class,
    optionally followed by one newline. *)
Lemma allowed_path_match_spec (s : string) :
  allowed_path_match s = true
  <-> exists w, w <> "" /\ all_allowed w = true /\ (s = w \/ s = w ++ newline).
Proof.
  split.
  - destruct s as [|c s]; simpl; [discriminate|].
    intros H. apply andb_true_iff in H. destruct H as [Hc Hs].
    apply class_star_dollar_spec in Hs. destruct Hs as (w & Hw & Hsw).
    exists (String c w). simpl. rewrite Hc, Hw.
    split; [discriminate|]. split; [reflexivity|].
    destruct Hsw as [-> | ->]; auto.
  - intros (w & Hne & Hw & Hs). destruct w as [|c w]; [contradiction|].
    simpl in Hw. apply andb_true_iff in Hw. destruct Hw as [Hc Hw].
    assert (Hrest : exists s', s = String c s' /\ (s' = w \/ s' = w ++ newline)).
    { destruct Hs as [-> | ->]; eexists; split; try reflexivity; auto. }
    destruct Hrest as (s' & -> & Hs'). simpl. rewrite Hc. simpl.
    apply class_star_dollar_spec. now exists w.
Qed.

(** C6.  The name ["abc\n"] contains a newline, which is outside the
    class, and [_verify_out_folder] accepts it: [verify] returns no
    error for a request that carries it. *)
Theorem trailing_newline_accepted :
  let name := "abc" ++ newline in
  let self := FilesConfig.__init__ Fixtures.fs_home None (Some "a.txt")
                                   (Some name) in
  all_allowed name = false
  /\ FilesConfig.out_folder self = Some name
  /\ FilesConfig._verify_out_folder self = []
  /\ FilesConfig.verify Fixtures.fs_home self
     = Ok ([], {| FilesConfig.path := None;
                  FilesConfig.files := Some ["/home/u/a.txt"];
                  FilesConfig.out_folder := Some name |}).
Proof. repeat split. Qed.

(** *** Configuration loading *)

(** C5, as stated, fails: a document that has [tenant], [client], [site]
    and [secret] under the key [sharepoint] (and [chunk_size] under
    [runtime]) is refused, because the key that is read is [sp]. *)
Lemma sharepoint_namespace_is_not_read :
  lookup2 Fixtures.conf_sharepoint "sharepoint" "tenant" = Some (YStr "t-id")
  /\ lookup2 Fixtures.conf_sharepoint "sharepoint" "client" = Some (YStr "c-id")
  /\ lookup2 Fixtures.conf_sharepoint "sharepoint" "site"
     = Some (YStr "https://example.sharepoint.com/sites/x")
  /\ lookup2 Fixtures.conf_sharepoint "sharepoint" "secret" = Some (YStr "s3cret")
  /\ lookup2 Fixtures.conf_sharepoint "runtime" "chunk_size" = Some (YInt 4)
  /\ SharepointConfig.__init__ (Document Fixtures.conf_sharepoint) None
     = Raise (KeyError "sp").
Proof. repeat split. Qed.

Lemma getitem2_ok (conf : yaml) (ns key : string) (v : yaml) :
  (exists m, getitem conf ns = Ok m /\ getitem m key = Ok v)
  <-> lookup2 conf ns key = Some v.
Proof.
  unfold lookup2, getitem. split.
  - intros (m & Hm & Hv). destruct conf; try discriminate.
    destruct (FS.assoc ns pairs) as [x|]; [|discriminate].
    injection Hm as ->. destruct m; try discriminate.
    destruct (FS.assoc key pairs0); [|discriminate]. now injection Hv as ->.
  - destruct conf; try discriminate.
    destruct (FS.assoc ns pairs) as [x|]; [|discriminate].
    destruct x; try discriminate. intros H. eexists. split; [reflexivity|].
    simpl. now rewrite H.
Qed.

Lemma getitem2_some (conf : yaml) (ns key : string) (v : yaml) :
  lookup2 conf ns key = Some v ->
  exists m, getitem conf ns = Ok m /\ getitem m key = Ok v.
Proof. apply getitem2_ok. Qed.

Lemma sharepoint_init_ok (cf : config_file) (subsite : option string)
      (c : SharepointConfig.t) :
  SharepointConfig.__init__ cf subsite = Ok c
  <-> exists conf,
      cf = Document conf
      /\ lookup2 conf "sp" "tenant" = Some (SharepointConfig.tenant c)
      /\ lookup2 conf "sp" "client" = Some (SharepointConfig.client c)
      /\ lookup2 conf "sp" "site" = Some (SharepointConfig.site c)
      /\ lookup2 conf "sp" "secret" = Some (SharepointConfig.secret c)
      /\ SharepointConfig.subsite c = subsite.
Proof.
  unfold SharepointConfig.__init__. split.
  - destruct cf as [| |conf]; simpl; try discriminate.
    destruct (getitem conf "sp") as [sp|] eqn:Hsp; [|discriminate].
    destruct (getitem sp "tenant") as [v1|] eqn:H1; [|discriminate].
    destruct (getitem sp "client") as [v2|] eqn:H2; [|discriminate].
    destruct (getitem sp "site") as [v3|] eqn:H3; [|discriminate].
    destruct (getitem sp "secret") as [v4|] eqn:H4; [|discriminate].
    intros H. injection H as <-. simpl. exists conf.
    repeat split; apply getitem2_ok; now exists sp.
  - intros (conf & -> & H1 & H2 & H3 & H4 & Hs). simpl.
    destruct (getitem2_some _ _ _ _ H1) as (sp & Hsp & E1).
    destruct (getitem2_some _ _ _ _ H2) as (sp2 & Hsp2 & E2).
    destruct (getitem2_some _ _ _ _ H3) as (sp3 & Hsp3 & E3).
    destruct (getitem2_some _ _ _ _ H4) as (sp4 & Hsp4 & E4).
    rewrite Hsp in Hsp2, Hsp3, Hsp4.
    injection Hsp2 as <-. injection Hsp3 as <-. injection Hsp4 as <-.
    rewrite Hsp, E1, E2, E3, E4.
    destruct c; simpl in *; now subst.
Qed.

Lemma runtime_init_ok (cf : config_file) (debug : bool) (r : RuntimeConfig.t) :
  RuntimeConfig.__init__ cf debug = Ok r
  <-> exists conf,
      cf = Document conf
      /\ lookup2 conf "runtime" "chunk_size" = Some (RuntimeConfig.chunk_size r)
      /\ RuntimeConfig.debug r = debug.
Proof.
  unfold RuntimeConfig.__init__. split.
  - destruct cf as [| |conf]; simpl; try discriminate.
    destruct (getitem conf "runtime") as [rt|] eqn:Hrt; [|discriminate].
    destruct (getitem rt "chunk_size") as [v|] eqn:Hv; [|discriminate].
    intros H. injection H as <-. simpl. exists conf.
    repeat split; apply getitem2_ok; now exists rt.
  - intros (conf & -> & H1 & Hd). simpl.
    destruct (getitem2_some _ _ _ _ H1) as (rt & Hrt & E1).
    rewrite Hrt, E1.
    destruct r; simpl in *; now subst.
Qed.

(** C5, amended.  Loading succeeds exactly when [config.yaml] is present
    and parses to a mapping that has [tenant], [client], [site] and
    [secret] under the key [sp], respectively [chunk_size] under the key
    [runtime]; the fields are then the values found there.  In every
    other case, a missing file and an absent key among them, loading
    raises: no field has a default. *)
Theorem config_loading_reads_sp_and_runtime
        (cf : config_file) (subsite : option string) (debug : bool) :
  (forall c, SharepointConfig.__init__ cf subsite = Ok c
             <-> exists conf,
               cf = Document conf
               /\ lookup2 conf "sp" "tenant" = Some (SharepointConfig.tenant c)
               /\ lookup2 conf "sp" "client" = Some (SharepointConfig.client c)
               /\ lookup2 conf "sp" "site" = Some (SharepointConfig.site c)
               /\ lookup2 conf "sp" "secret" = Some (SharepointConfig.secret c)
               /\ SharepointConfig.subsite c = subsite)
  /\ (forall r, RuntimeConfig.__init__ cf debug = Ok r
                <-> exists conf,
                  cf = Document conf
                  /\ lookup2 conf "runtime" "chunk_size"
                     = Some (RuntimeConfig.chunk_size r)
                  /\ RuntimeConfig.debug r = debug)
  /\ (cf = Missing ->
      SharepointConfig.__init__ cf subsite = Raise (FileNotFoundError "config.yaml")
      /\ RuntimeConfig.__init__ cf debug = Raise (FileNotFoundError "config.yaml"))
  /\ (forall conf key,
         cf = Document conf ->
         In key ["tenant"; "client"; "site"; "secret"] ->
         lookup2 conf "sp" key = None ->
         exists e, SharepointConfig.__init__ cf subsite = Raise e)
  /\ (forall conf,
         cf = Document conf ->
         lookup2 conf "runtime" "chunk_size" = None ->
         exists e, RuntimeConfig.__init__ cf debug = Raise e).
Proof.
  split; [intros c; apply sharepoint_init_ok|].
  split; [intros r; apply runtime_init_ok|].
  split; [intros ->; split; reflexivity|].
  split.
  - intros conf key -> Hkey Hnone.
    destruct (SharepointConfig.__init__ (Document conf) subsite) as [c|e] eqn:E;
      [|now exists e].
    apply sharepoint_init_ok in E.
    destruct E as (conf' & [= <-] & H1 & H2 & H3 & H4 & _).
    simpl in Hkey.
    destruct Hkey as [<-|[<-|[<-|[<-|[]]]]]; congruence.
  - intros conf -> Hnone.
    destruct (RuntimeConfig.__init__ (Document conf) debug) as [r|e] eqn:E;
      [|now exists e].
    apply runtime_init_ok in E. destruct E as (conf' & [= <-] & H1 & _).
    congruence.
Qed.

(** *** Computations and traces *)

Section Traces.

Context {RS : Type}.

Lemma bind_ok_inv {A B : Type} (m : M RS A) (k : A -> M RS B)
      (s s' : RS) (b : B) (tr : list event) :
  bind m k s = (Ok b, (tr, s')) ->
  exists a t1 s1 t2,
    m s = (Ok a, (t1, s1)) /\ k a s1 = (Ok b, (t2, s'))
    /\ tr = (t1 ++ t2)%list.
Proof.
  unfold bind. destruct (m s) as [[a|e] [t1 s1]]; [|discriminate].
  destruct (k a s1) as [r [t2 s2]] eqn:Hk. intros [= -> <- <-].
  now exists a, t1, s1, t2.
Qed.

Lemma bind_run {A B : Type} (m : M RS A) (k : A -> M RS B)
      (s s1 : RS) (a : A) (t1 : list event) :
  m s = (Ok a, (t1, s1)) ->
  bind m k s = match k a s1 with
               | (r, (t2, s2)) => (r, ((t1 ++ t2)%list, s2))
               end.
Proof. unfold bind. now intros ->. Qed.

Lemma bind_raise {A B : Type} (m : M RS A) (k : A -> M RS B)
      (s s1 : RS) (e : exn) (t1 : list event) :
  m s = (Raise e, (t1, s1)) -> bind m k s = (Raise e, (t1, s1)).
Proof. unfold bind. now intros ->. Qed.

Lemma uploads_attempted_app (t1 t2 : list event) :
  uploads_attempted (t1 ++ t2) = (uploads_attempted t1 ++ uploads_attempted t2)%list.
Proof.
  induction t1 as [|e t1 IH]; [reflexivity|].
  destruct e; simpl; rewrite IH; reflexivity.
Qed.

Lemma logged_errors_app (t1 t2 : list event) :
  logged_errors (t1 ++ t2) = (logged_errors t1 ++ logged_errors t2)%list.
Proof.
  induction t1 as [|e t1 IH]; [reflexivity|].
  destruct e; simpl; rewrite IH; reflexivity.
Qed.

Lemma existsb_failure_app_r (t1 t2 : list event) :
  existsb is_failure_log t2 = true ->
  existsb is_failure_log (t1 ++ t2) = true.
Proof. intros H. rewrite existsb_app, H. apply orb_true_r. Qed.

Lemma existsb_failure_app_l (t1 t2 : list event) :
  existsb is_failure_log t1 = true ->
  existsb is_failure_log (t1 ++ t2) = true.
Proof. intros H. rewrite existsb_app, H. reflexivity. Qed.

End Traces.

(** *** The progress callback *)

Section Progress.

Variable RS : Type.
Variable self : Sharepoint.t.
Variable z : Z.
Hypothesis chunk_is_int :
  RuntimeConfig.chunk_size (Sharepoint._runtime self) = YInt z.

Lemma display_upload_progress_int (pbar : tqdm) (offset : Z) :
  Sharepoint.display_upload_progress self pbar offset
  = Ok {| total := total pbar; n := n pbar + z |}.
Proof.
  unfold Sharepoint.display_upload_progress. now rewrite chunk_is_int.
Qed.

Lemma report_progress_int (offsets : list Z) (pbar : tqdm) (s : RS) :
  Sharepoint.report_progress RS self pbar offsets s
  = (Ok {| total := total pbar;
           n := n pbar + z * Z.of_nat (length offsets) |},
     (bars z pbar (length offsets), s)).
Proof.
  revert pbar. induction offsets as [|o os IH]; intros pbar.
  - simpl. unfold ret. destruct pbar as [t k]. simpl.
    now rewrite Z.mul_0_r, Z.add_0_r.
  - cbn [Sharepoint.report_progress length bars].
    unfold bind, lift, emit. rewrite display_upload_progress_int, IH.
    cbn [total n app]. do 3 f_equal. lia.
Qed.

Lemma uploads_attempted_bars (pbar : tqdm) (k : nat) :
  uploads_attempted (bars z pbar k) = [].
Proof. revert pbar. induction k as [|k IH]; intros pbar; simpl; auto. Qed.

(** C9.  With an integer chunk size [z] configured, every invocation
    of the callback advances the bar by [z], whatever offset it is
    given; so after a whole file the bar stands at [z] times the number
    of callbacks, the last chunk counting like the others. *)
Theorem progress_advances_by_chunk_size
        (pbar : tqdm) (offset : Z) (offsets : list Z) (s : RS) :
  Sharepoint.display_upload_progress self pbar offset
  = Ok {| total := total pbar; n := n pbar + z |}
  /\ fst (Sharepoint.report_progress RS self pbar offsets s)
     = Ok {| total := total pbar;
             n := n pbar + z * Z.of_nat (length offsets) |}.
Proof.
  split; [apply display_upload_progress_int|].
  now rewrite report_progress_int.
Qed.

End Progress.

(** *** Uploading *)

Section Uploading.

Variable RS : Type.
Variable office365 : client RS.
Variable fs : FS.filesystem.
Variable self : Sharepoint.t.

Let upload_file := Sharepoint.upload_file RS office365 fs self.
Let upload_loop := Sharepoint.upload_loop RS office365 fs self.

(** Progress reports neither touch the remote state nor start an
    upload. *)
Lemma report_progress_quiet (offsets : list Z) (pbar : tqdm) (s : RS) :
  exists r tp,
    Sharepoint.report_progress RS self pbar offsets s = (r, (tp, s))
    /\ uploads_attempted tp = [] /\ existsb is_failure_log tp = false.
Proof.
  revert pbar. induction offsets as [|o os IH]; intros pbar.
  - now exists (Ok pbar), [].
  - cbn [Sharepoint.report_progress]. unfold bind, lift, emit.
    destruct (Sharepoint.display_upload_progress self pbar o) as [pbar'|e].
    + destruct (IH pbar') as (r & tp & -> & Hu & Hf).
      exists r, (Progress pbar' :: tp). simpl. auto.
    + now exists (Raise e), [].
Qed.

(** One iteration starts at most one upload session, for its own
    file; it starts exactly one whenever it does not raise. *)
Lemma upload_file_attempts (f : string) (s s' : RS)
      (r : result bool) (tr : list event) :
  upload_file f s = (r, (tr, s')) ->
  (uploads_attempted tr = [f] \/ (uploads_attempted tr = [] /\ exists e, r = Raise e))
  /\ (forall b, r = Ok b -> uploads_attempted tr = [f])
  /\ (r = Ok false -> existsb is_failure_log tr = true).
Proof.
  unfold upload_file, Sharepoint.upload_file, bind, emit, lift.
  destruct (FS.getsize fs f) as [size|e].
  2:{ intros [= <- <- <-]. simpl.
      repeat split; try discriminate. right. split; [reflexivity|now exists e]. }
  destruct (create_upload_session office365 s _ _ f _) as [[offsets res] s1].
  cbn [fst snd].
  destruct (report_progress_quiet offsets {| total := size; n := 0 |} s1)
    as (rp & tp & -> & Hu & Hf).
  destruct rp as [pbar|e].
  - destruct res as [url|[]]; unfold ret, raise; intros [= <- <- <-];
      cbn [app uploads_attempted existsb is_failure_log orb];
      rewrite ?uploads_attempted_app, ?existsb_app, ?Hu, ?Hf;
      simpl; repeat split; auto; discriminate.
  - intros [= <- <- <-]. cbn [app uploads_attempted].
    rewrite Hu. repeat split; auto; discriminate.
Qed.

(** Uploads are attempted in list order, one session per file, with no
    file skipped before the loop ends. *)
Lemma uploads_in_order (files : list string) (s s' : RS)
      (r : result bool) (tr : list event) :
  upload_loop files s = (r, (tr, s')) ->
  (exists rest, files = (uploads_attempted tr ++ rest)%list)
  /\ (r = Ok true -> uploads_attempted tr = files)
  /\ (r = Ok false -> existsb is_failure_log tr = true).
Proof.
  revert s s' r tr. induction files as [|f files IH]; intros s s' r tr.
  - intros [= <- <- <-]. simpl. repeat split; try discriminate. now exists [].
  - unfold upload_loop. cbn [Sharepoint.upload_loop].
    fold upload_file. fold upload_loop. unfold bind.
    destruct (upload_file f s) as [[b|e] [t1 s1]] eqn:Hf.
    + destruct (upload_file_attempts _ _ _ _ _ Hf) as (_ & Hok & Hfail).
      specialize (Hok b eq_refl). destruct b.
      * destruct (upload_loop files s1) as [r2 [t2 s2]] eqn:Hl.
        intros [= <- <- <-].
        destruct (IH _ _ _ _ Hl) as ((rest & Hrest) & Htrue & Hfalse).
        rewrite uploads_attempted_app, Hok. simpl. repeat split.
        -- exists rest. now rewrite Hrest at 1.
        -- intros H. now rewrite (Htrue H).
        -- intros H. apply existsb_failure_app_r. auto.
      * unfold ret. intros [= <- <- <-]. rewrite app_nil_r, Hok.
        repeat split; try discriminate; [now exists files | auto].
    + intros [= <- <- <-].
      destruct (upload_file_attempts _ _ _ _ _ Hf) as ([H|[H _]] & _ & _);
        rewrite H; repeat split; try discriminate; eexists; reflexivity.
Qed.

(** The loop over a list that continues another one. *)
Lemma upload_loop_app (done rest : list string) (s s1 : RS)
      (t1 : list event) :
  upload_loop done s = (Ok true, (t1, s1)) ->
  upload_loop (done ++ rest) s
  = match upload_loop rest s1 with
    | (r, (t2, s2)) => (r, ((t1 ++ t2)%list, s2))
    end.
Proof.
  revert s t1. induction done as [|f done IH]; intros s t1.
  - intros [= <- <-]. simpl. destruct (upload_loop rest s) as [r [t2 s2]].
    reflexivity.
  - unfold upload_loop. cbn [Sharepoint.upload_loop app].
    fold upload_file. fold upload_loop. unfold bind.
    destruct (upload_file f s) as [[[|]|e] [ta sa]]; try discriminate.
    destruct (upload_loop done sa) as [r [tb sb]] eqn:Hd.
    intros [= -> <- ->]. rewrite (IH _ _ Hd).
    destruct (upload_loop rest s1) as [r2 [t2 s2]].
    now rewrite app_assoc.
Qed.

(** C7.  Files are uploaded one after the other in list order.  When
    the files before [f] have been uploaded and the remote request for
    [f] fails, [upload_files] logs the server's message and returns
    [False] at once: the sessions started are those of the files up to
    [f], and none is started for a file after it. *)
Theorem upload_stops_at_first_failure
        (done rest : list string) (f msg : string) (s s1 s2 : RS)
        (tr1 : list event) (size z : Z) (offsets : list Z) :
  FilesConfig.files (Sharepoint._fconfig self) = Some (done ++ f :: rest)%list ->
  Sharepoint.upload_loop RS office365 fs self done s = (Ok true, (tr1, s1)) ->
  FS.getsize fs f = Ok size ->
  RuntimeConfig.chunk_size (Sharepoint._runtime self) = YInt z ->
  create_upload_session office365 s1 (Sharepoint._url self)
    (FilesConfig.out_folder (Sharepoint._fconfig self)) f (YInt z)
  = ((offsets, Raise (ClientRequestException msg)), s2) ->
  exists tr2,
    Sharepoint.upload_files RS office365 fs self s
    = (Ok false, ((tr1 ++ tr2 ++ [LogError msg])%list, s2))
    /\ uploads_attempted (tr1 ++ tr2 ++ [LogError msg]) = (done ++ [f])%list
    /\ logged_errors (tr2 ++ [LogError msg]) = [msg].
Proof.
  intros Hfiles Hdone Hsize Hchunk Hsession.
  pose (tr2 := (LogInfo ("File upload: " ++ basename f)
                :: NetUpload (Sharepoint._url self)
                     (FilesConfig.out_folder (Sharepoint._fconfig self))
                     f (YInt z)
                :: bars z {| total := size; n := 0 |} (length offsets))).
  assert (Hf : upload_file f s1 = (Ok false, ((tr2 ++ [LogError msg])%list, s2))).
  { unfold upload_file, Sharepoint.upload_file, bind, emit, lift.
    rewrite Hsize, Hchunk, Hsession. cbn [fst snd].
    rewrite (report_progress_int RS self z Hchunk). unfold ret.
    reflexivity. }
  exists tr2. unfold Sharepoint.upload_files. rewrite Hfiles.
  fold upload_loop in Hdone |- *. rewrite (upload_loop_app _ _ _ _ _ Hdone).
  unfold upload_loop at 1. cbn [Sharepoint.upload_loop].
  fold upload_file. unfold bind at 1. rewrite Hf. unfold ret.
  rewrite app_nil_r. split; [reflexivity|].
  destruct (uploads_in_order _ _ _ _ _ Hdone) as (_ & Htrue & _).
  rewrite uploads_attempted_app, (Htrue eq_refl). split.
  - f_equal. unfold tr2. cbn [app uploads_attempted].
    now rewrite uploads_attempted_app, uploads_attempted_bars.
  - unfold tr2. cbn [app logged_errors]. rewrite logged_errors_app.
    assert (Hb : forall k p, logged_errors (bars z p k) = []).
    { induction k; intros p; simpl; auto. }
    now rewrite Hb.
Qed.

End Uploading.

(** *** The orchestrator *)

Section Orchestrator.

Variable RS : Type.
Variable office365 : client RS.
Variable fs : FS.filesystem.
Variable config_yaml : config_file.
Variable self : Uploader.t.

Let main := Uploader.main RS office365 fs config_yaml self.
Let request :=
  FilesConfig.__init__ fs (Uploader._path self) (Uploader._files self)
                       (Uploader._out self).

Lemma log_errors_trace (errors : list string) (s : RS) :
  Uploader.log_errors RS errors s = (Ok tt, (map LogError errors, s)).
Proof.
  induction errors as [|v rest IH]; [reflexivity|].
  cbn [Uploader.log_errors map]. unfold bind, emit. now rewrite IH.
Qed.

Lemma logged_errors_map (errors : list string) :
  logged_errors (map LogError errors) = errors.
Proof. induction errors as [|v rest IH]; simpl; congruence. Qed.

Lemma no_network_in_errors (errors : list string) :
  filter is_network (map LogError errors) = [].
Proof. induction errors as [|v rest IH]; simpl; auto. Qed.

(** What [main] does once the configuration is loaded and [verify]
    has returned. *)
Lemma main_after_verify (spconf : SharepointConfig.t)
      (runtime : RuntimeConfig.t) (errs : list string)
      (fconf : FilesConfig.t) (s : RS) :
  SharepointConfig.__init__ config_yaml (Uploader._subsite self) = Ok spconf ->
  RuntimeConfig.__init__ config_yaml (Uploader._debug self) = Ok runtime ->
  FilesConfig.verify fs request = Ok (errs, fconf) ->
  let dbg := if Uploader._debug self
             then [LogDebug (ReprSharepointConfig spconf);
                   LogDebug (ReprRuntimeConfig runtime);
                   LogDebug (ReprFilesConfig fconf)]
             else [] in
  let dbg' := if Uploader._debug self
              then [LogDebug (ReprFilesConfig fconf)] else [] in
  main s
  = match errs with
    | _ :: _ => (Ok Uploader.ReturnInvalid, ((dbg ++ map LogError errs)%list, s))
    | [] =>
        match Uploader.upload RS office365 fs self fconf spconf runtime s with
        | (Ok ex, (tr, s')) => (Ok ex, ((dbg ++ dbg' ++ tr)%list, s'))
        | (Raise e, (tr, s')) =>
            (Ok (Uploader.ReturnCaught e),
             ((dbg ++ dbg' ++ tr ++ [LogException e])%list, s'))
        end
    end.
Proof.
  intros Hsp Hrt Hv dbg dbg'.
  unfold main, Uploader.main, bind, lift. fold request.
  rewrite Hsp, Hrt, Hv. cbn [fst snd app].
  destruct errs as [|v rest].
  - unfold try_except.
    destruct (Uploader.upload RS office365 fs self fconf spconf runtime)
      as [[ex|e] [tr s']] eqn:Hu;
      unfold dbg, dbg'; destruct (Uploader._debug self);
      unfold when, emit, ret; cbn [app];
      rewrite Hu; cbn [app]; rewrite ?app_nil_r; reflexivity.
  - unfold dbg.
    destruct (Uploader._debug self); unfold when, emit, ret;
      cbn [app]; rewrite log_errors_trace; cbn [app];
      rewrite ?app_nil_r; reflexivity.
Qed.

(** C3.  When [verify] returns a non-empty list, [main] logs each of
    its entries as an error, in order, and returns: the trace holds no
    call to the remote site and the remote state is untouched. *)
Theorem validation_failure_stops_before_network
        (spconf : SharepointConfig.t) (runtime : RuntimeConfig.t)
        (errs : list string) (fconf : FilesConfig.t) (s : RS) :
  SharepointConfig.__init__ config_yaml (Uploader._subsite self) = Ok spconf ->
  RuntimeConfig.__init__ config_yaml (Uploader._debug self) = Ok runtime ->
  FilesConfig.verify fs
    (FilesConfig.__init__ fs (Uploader._path self) (Uploader._files self)
                          (Uploader._out self))
  = Ok (errs, fconf) ->
  errs <> [] ->
  exists tr,
    Uploader.main RS office365 fs config_yaml self s
    = (Ok Uploader.ReturnInvalid, (tr, s))
    /\ logged_errors tr = errs
    /\ filter is_network tr = [].
Proof.
  intros Hsp Hrt Hv Hne.
  pose proof (main_after_verify _ _ _ _ s Hsp Hrt Hv) as Hmain.
  cbv zeta in Hmain. unfold main in Hmain.
  destruct errs as [|v rest]; [contradiction|].
  eexists. split; [exact Hmain|].
  rewrite logged_errors_app, filter_app, logged_errors_map, no_network_in_errors.
  destruct (Uploader._debug self); split; reflexivity.
Qed.

Lemma query_none_logs {A : Type} (e : event) (op : RS -> result A * RS)
      (s s' : RS) (tr : list event) :
  Sharepoint.query RS e op s = (Ok None, (tr, s')) ->
  existsb is_failure_log tr = true.
Proof.
  unfold Sharepoint.query. destruct (op s) as [[a|[]] s1];
    intros [= <- <-]; try discriminate.
  simpl. now destruct e.
Qed.

Lemma verify_url_false_logs (sp : Sharepoint.t) (s s' : RS)
      (tr : list event) :
  Sharepoint.verify_url RS office365 sp s = (Ok false, (tr, s')) ->
  existsb is_failure_log tr = true.
Proof.
  unfold Sharepoint.verify_url. intros H.
  apply bind_ok_inv in H. destruct H as (web & t1 & s1 & t2 & Hq & Hk & ->).
  destruct web as [[title url]|].
  - unfold bind, emit, ret in Hk. discriminate.
  - apply existsb_failure_app_l. exact (query_none_logs _ _ _ _ _ Hq).
Qed.

Lemma add_folder_false_logs (sp : Sharepoint.t) (s s' : RS)
      (tr : list event) :
  Sharepoint.add_folder RS office365 sp s = (Ok false, (tr, s')) ->
  existsb is_failure_log tr = true.
Proof.
  unfold Sharepoint.add_folder. intros H.
  apply bind_ok_inv in H. destruct H as (nf & t1 & s1 & t2 & Hq & Hk & ->).
  destruct nf as [url|].
  - unfold bind, emit, ret in Hk. discriminate.
  - apply existsb_failure_app_l. exact (query_none_logs _ _ _ _ _ Hq).
Qed.

Lemma upload_files_false_logs (sp : Sharepoint.t) (s s' : RS)
      (tr : list event) :
  Sharepoint.upload_files RS office365 fs sp s = (Ok false, (tr, s')) ->
  existsb is_failure_log tr = true.
Proof.
  unfold Sharepoint.upload_files.
  destruct (FilesConfig.files (Sharepoint._fconfig sp)) as [files|];
    [|discriminate].
  intros H. now apply (uploads_in_order _ _ _ _ _ _ _ _ _ H).
Qed.

(** Every way out of the [try] body other than a complete upload has
    logged an error. *)
Lemma upload_failure_logged (fconf : FilesConfig.t)
      (spconf : SharepointConfig.t) (runtime : RuntimeConfig.t)
      (s s' : RS) (ex : Uploader.exit_point) (tr : list event) :
  Uploader.upload RS office365 fs self fconf spconf runtime s
  = (Ok ex, (tr, s')) ->
  ex <> Uploader.ReturnUploaded true ->
  existsb is_failure_log tr = true.
Proof.
  unfold Uploader.upload. intros H Hex.
  apply bind_ok_inv in H. destruct H as (sp & t1 & s1 & t2 & _ & H & ->).
  apply existsb_failure_app_r.
  apply bind_ok_inv in H. destruct H as ([] & t3 & s3 & t4 & _ & H & ->).
  apply existsb_failure_app_r.
  apply bind_ok_inv in H. destruct H as (ok & t5 & s5 & t6 & Hurl & H & ->).
  destruct ok; cbn [negb] in H.
  2:{ apply existsb_failure_app_l. exact (verify_url_false_logs _ _ _ _ Hurl). }
  apply existsb_failure_app_r.
  apply bind_ok_inv in H. destruct H as (ff & t7 & s7 & t8 & Hfold & H & ->).
  destruct ff.
  - apply existsb_failure_app_l.
    destruct (truthy_opt (FilesConfig.out_folder fconf));
      [|unfold ret in Hfold; discriminate].
    apply bind_ok_inv in Hfold.
    destruct Hfold as (added & t9 & s9 & t10 & Hadd & Hr & ->).
    apply existsb_failure_app_l. destruct added.
    + unfold ret in Hr. discriminate.
    + exact (add_folder_false_logs _ _ _ _ Hadd).
  - apply existsb_failure_app_r.
    apply bind_ok_inv in H. destruct H as (all & t9 & s9 & t10 & Hup & Hr & ->).
    apply existsb_failure_app_l. unfold ret in Hr. injection Hr as <- _ _.
    destruct all; [contradiction|].
    exact (upload_files_false_logs _ _ _ _ Hup).
Qed.

(** The [try] body never returns as the handler does. *)
Lemma upload_not_caught (fconf : FilesConfig.t)
      (spconf : SharepointConfig.t) (runtime : RuntimeConfig.t)
      (s s' : RS) (e : exn) (tr : list event) :
  Uploader.upload RS office365 fs self fconf spconf runtime s
  <> (Ok (Uploader.ReturnCaught e), (tr, s')).
Proof.
  unfold Uploader.upload. intros Hu.
  repeat (apply bind_ok_inv in Hu;
          destruct Hu as (? & ? & ? & ? & _ & Hu & _)).
  repeat match type of Hu with
         | (if ?b then _ else _) _ = _ => destruct b
         | ret _ _ = _ => unfold ret in Hu; discriminate
         | bind _ _ _ = _ =>
             apply bind_ok_inv in Hu;
             destruct Hu as (? & ? & ? & ? & _ & Hu & _)
         end.
Qed.

(** C8, amended.  [main] lets an exception escape only when it is
    raised before the [try] statement, by loading the configuration or
    by [verify]; nothing has been logged or sent then.  In every other
    run [main] returns: an exception raised while authenticating,
    querying the site, adding the folder or uploading ends up in the
    handler, which logs it last, and every return other than the one
    after a complete upload has logged at least one error. *)
Theorem failures_after_loading_are_logged (s : RS) :
  match Uploader.main RS office365 fs config_yaml self s with
  | (Raise e, (tr, s')) =>
      tr = [] /\ s' = s
      /\ (SharepointConfig.__init__ config_yaml (Uploader._subsite self) = Raise e
          \/ RuntimeConfig.__init__ config_yaml (Uploader._debug self) = Raise e
          \/ FilesConfig.verify fs
               (FilesConfig.__init__ fs (Uploader._path self)
                  (Uploader._files self) (Uploader._out self)) = Raise e)
  | (Ok ex, (tr, s')) =>
      (exists spconf runtime verified,
          SharepointConfig.__init__ config_yaml (Uploader._subsite self)
          = Ok spconf
          /\ RuntimeConfig.__init__ config_yaml (Uploader._debug self)
             = Ok runtime
          /\ FilesConfig.verify fs
               (FilesConfig.__init__ fs (Uploader._path self)
                  (Uploader._files self) (Uploader._out self)) = Ok verified
          /\ forall e,
              ex = Uploader.ReturnCaught e <->
              exists tr0 s0,
                fst verified = []
                /\ Uploader.upload RS office365 fs self (snd verified)
                     spconf runtime s = (Raise e, (tr0, s0)))
      /\ (forall e, ex = Uploader.ReturnCaught e ->
                    exists tr0, tr = (tr0 ++ [LogException e])%list)
      /\ (ex <> Uploader.ReturnUploaded true ->
          existsb is_failure_log tr = true)
  end.
Proof.
  destruct (SharepointConfig.__init__ config_yaml (Uploader._subsite self))
    as [spconf|e1] eqn:Hsp.
  2:{ unfold Uploader.main, bind, lift. rewrite Hsp. auto. }
  destruct (RuntimeConfig.__init__ config_yaml (Uploader._debug self))
    as [runtime|e2] eqn:Hrt.
  2:{ unfold Uploader.main, bind, lift. rewrite Hsp, Hrt. auto. }
  destruct (FilesConfig.verify fs request) as [[errs fconf]|e3] eqn:Hv.
  2:{ unfold Uploader.main, bind, lift. fold request. rewrite Hsp, Hrt, Hv.
      auto. }
  pose proof (main_after_verify _ _ _ _ s Hsp Hrt Hv) as Hmain.
  cbv zeta in Hmain. unfold main in Hmain. rewrite Hmain. clear Hmain.
  fold request. rewrite Hv.
  destruct errs as [|v rest].
  - destruct (Uploader.upload RS office365 fs self fconf spconf runtime s)
      as [[ex|e] [tr s']] eqn:Hu.
    + split; [|split].
      * exists spconf, runtime, ([], fconf). repeat split; auto.
        -- intros ->. now apply upload_not_caught in Hu.
        -- cbn [fst snd]. rewrite Hu. intros (? & ? & _ & [=]).
      * intros e ->. now apply upload_not_caught in Hu.
      * intros Hex. apply existsb_failure_app_r, existsb_failure_app_r.
        exact (upload_failure_logged _ _ _ _ _ _ _ Hu Hex).
    + split; [|split].
      * exists spconf, runtime, ([], fconf). repeat split; auto.
        -- intros [= <-]. cbn [snd]. eauto.
        -- cbn [fst snd]. rewrite Hu. intros (? & ? & _ & [= -> _ _]).
           reflexivity.
      * intros e0 [= <-]. eexists. rewrite !app_assoc. reflexivity.
      * intros _. rewrite !app_assoc. apply existsb_failure_app_r.
        reflexivity.
  - split; [|split].
    + exists spconf, runtime, (v :: rest, fconf). repeat split; auto.
      * discriminate.
      * cbn [fst]. intros (? & ? & [=] & _).
    + discriminate.
    + intros _. apply existsb_failure_app_r. reflexivity.
Qed.

End Orchestrator.

(** *** The properties at concrete runs *)

Lemma progress_advances_by_chunk_size_witness :
  RuntimeConfig.chunk_size (Sharepoint._runtime Fixtures.session) = YInt 4
  /\ Sharepoint.display_upload_progress Fixtures.session
       {| total := 10; n := 8 |} 10
     = Ok {| total := 10; n := 12 |}.
Proof.
  split; [reflexivity|].
  exact (proj1 (progress_advances_by_chunk_size unit Fixtures.session 4
                  eq_refl {| total := 10; n := 8 |} 10 [] tt)).
Defined.

(** A file of ten bytes sent in chunks of four: three callbacks, and the
    bar ends at twelve. *)
Example progress_overshoots_last_chunk :
  fst (Sharepoint.report_progress unit Fixtures.session
         {| total := 10; n := 0 |} [4; 8; 10]%Z tt)
  = Ok {| total := 10; n := 12 |}.
Proof. reflexivity. Qed.

Lemma upload_stops_at_first_failure_witness :
  exists tr,
    Sharepoint.upload_files (list string) Fixtures.site Fixtures.fs_home
      Fixtures.session []
    = (Ok false, (tr, ["/d/b.txt"]))
    /\ uploads_attempted tr = ["/d/b.txt"; "/d/c.txt"].
Proof.
  destruct (upload_stops_at_first_failure (list string) Fixtures.site
              Fixtures.fs_home Fixtures.session
              ["/d/b.txt"] ["/home/u/a.txt"] "/d/c.txt" "quota exceeded"
              [] ["/d/b.txt"] ["/d/b.txt"]
              [LogInfo "File upload: b.txt";
               NetUpload (YStr "https://example.sharepoint.com/sites/x")
                         (Some "d") "/d/b.txt" (YInt 4);
               Progress {| total := 10; n := 4 |};
               Progress {| total := 10; n := 8 |};
               Progress {| total := 10; n := 12 |};
               LogSuccess "File /d/b.txt uploaded to: /sites/x/Shared Documents/d/b.txt"]
              7%Z 4%Z [4%Z]
              eq_refl eq_refl eq_refl eq_refl eq_refl)
    as (tr2 & Hrun & Hattempted & _).
  eexists. split; [exact Hrun | exact Hattempted].
Defined.

Lemma validation_failure_stops_before_network_witness :
  exists tr,
    Uploader.main (list string) Fixtures.site Fixtures.fs_home
      (Document Fixtures.conf_sp) Fixtures.no_input []
    = (Ok Uploader.ReturnInvalid, (tr, []))
    /\ logged_errors tr = ["at least one of -i or -f must be present"]
    /\ filter is_network tr = [].
Proof.
  eapply validation_failure_stops_before_network;
    [reflexivity | reflexivity | reflexivity | discriminate].
Defined.

(** C8, as stated, fails: when [config.yaml] is missing, the exception
    of [open] leaves [main], and nothing has been logged. *)
Lemma missing_config_escapes_main :
  Uploader.main (list string) Fixtures.site Fixtures.fs_home Missing
    Fixtures.whole_directory []
  = (Raise (FileNotFoundError "config.yaml"), ([], [])).
Proof. reflexivity. Qed.

(** What becomes of the request of [verified_entry_need_not_exist]:
    the run passes validation, reaches the site and adds the folder,
    then [os.path.getsize] raises on the rewritten entry. *)
Example run_unanchored_entry :
  Uploader.main (list string) Fixtures.site Fixtures.fs_home
    (Document Fixtures.conf_sp) Fixtures.unanchored_entry []
  = (Ok (Uploader.ReturnCaught (FileNotFoundError "/d/a.txt")),
     ([NetAcquireToken (YStr "https://example.sharepoint.com/sites/x")
                       (YStr "c-id") (YStr "s3cret");
       NetGetWeb (YStr "https://example.sharepoint.com/sites/x");
       LogSuccess "Site X: https://example.sharepoint.com/sites/x";
       NetAddFolder (YStr "https://example.sharepoint.com/sites/x") (Some "d");
       LogSuccess "Added folder: /sites/x/Shared Documents/d";
       LogInfo "File upload: a.txt";
       LogException (FileNotFoundError "/d/a.txt")],
      [])).
Proof. reflexivity. Qed.

(** A whole run: [-i /d] uploads [b.txt], fails on [c.txt] and stops. *)
Example run_whole_directory :
  Uploader.main (list string) Fixtures.site Fixtures.fs_home
    (Document Fixtures.conf_sp) Fixtures.whole_directory []
  = (Ok (Uploader.ReturnUploaded false),
     ([NetAcquireToken (YStr "https://example.sharepoint.com/sites/x")
                       (YStr "c-id") (YStr "s3cret");
       NetGetWeb (YStr "https://example.sharepoint.com/sites/x");
       LogSuccess "Site X: https://example.sharepoint.com/sites/x";
       NetAddFolder (YStr "https://example.sharepoint.com/sites/x") (Some "d");
       LogSuccess "Added folder: /sites/x/Shared Documents/d";
       LogInfo "File upload: b.txt";
       NetUpload (YStr "https://example.sharepoint.com/sites/x") (Some "d")
                 "/d/b.txt" (YInt 4);
       Progress {| total := 10; n := 4 |};
       Progress {| total := 10; n := 8 |};
       Progress {| total := 10; n := 12 |};
       LogSuccess "File /d/b.txt uploaded to: /sites/x/Shared Documents/d/b.txt";
       LogInfo "File upload: c.txt";
       NetUpload (YStr "https://example.sharepoint.com/sites/x") (Some "d")
                 "/d/c.txt" (YInt 4);
       Progress {| total := 7; n := 4 |};
       LogError "quota exceeded"],
      ["/d/b.txt"])).
Proof. reflexivity. Qed.

(** ** Further properties of configuration loading *)

(** X14.  Which exception loading raises for a document that parses: a
    document that is not a mapping (an empty file loads as null), or an
    [sp] or [runtime] entry that is not a mapping, gives [TypeError]; an
    absent key gives [KeyError] naming the first absent key in the
    order [sp], [tenant], [client], [site], [secret], respectively
    [runtime], [chunk_size]. *)
Theorem config_error_kinds
        (conf : yaml) (subsite : option string) (debug : bool) :
  match conf with
  | YMap top =>
      match FS.assoc "sp" top with
      | None =>
          SharepointConfig.__init__ (Document conf) subsite
          = Raise (KeyError "sp")
      | Some (YMap m) =>
          match first_absent ["tenant"; "client"; "site"; "secret"] m with
          | Some key =>
              SharepointConfig.__init__ (Document conf) subsite
              = Raise (KeyError key)
          | None =>
              exists c, SharepointConfig.__init__ (Document conf) subsite = Ok c
          end
      | Some _ =>
          SharepointConfig.__init__ (Document conf) subsite = Raise TypeError
      end
      /\ match FS.assoc "runtime" top with
         | None =>
             RuntimeConfig.__init__ (Document conf) debug
             = Raise (KeyError "runtime")
         | Some (YMap m) =>
             match FS.assoc "chunk_size" m with
             | None =>
                 RuntimeConfig.__init__ (Document conf) debug
                 = Raise (KeyError "chunk_size")
             | Some v =>
                 RuntimeConfig.__init__ (Document conf) debug
                 = Ok {| RuntimeConfig.debug := debug;
                         RuntimeConfig.chunk_size := v |}
             end
         | Some _ =>
             RuntimeConfig.__init__ (Document conf) debug = Raise TypeError
         end
  | _ =>
      SharepointConfig.__init__ (Document conf) subsite = Raise TypeError
      /\ RuntimeConfig.__init__ (Document conf) debug = Raise TypeError
  end.
Proof.
  destruct conf as [| | | | |top]; try (split; reflexivity).
  unfold SharepointConfig.__init__, RuntimeConfig.__init__, first_absent.
  cbn [load_config getitem]. split.
  - destruct (FS.assoc "sp" top) as [[| | | | |m]|]; try reflexivity.
    cbn [getitem find].
    destruct (FS.assoc "tenant" m); [|reflexivity].
    destruct (FS.assoc "client" m); [|reflexivity].
    destruct (FS.assoc "site" m); [|reflexivity].
    destruct (FS.assoc "secret" m); [|reflexivity].
    eexists. reflexivity.
  - destruct (FS.assoc "runtime" top) as [[| | | | |m]|]; try reflexivity.
    cbn [getitem]. now destruct (FS.assoc "chunk_size" m).
Qed.

(** ** Further properties of validation *)

Section Checks.

Variable fs : FS.filesystem.

Lemma verify_out_folder_truthy (self : FilesConfig.t) (e : string) :
  In e (FilesConfig._verify_out_folder self) -> truthy e = true.
Proof.
  unfold FilesConfig._verify_out_folder.
  destruct (FilesConfig.out_folder self) as [o|]; [|contradiction].
  destruct (negb (truthy o)); [contradiction|].
  destruct (negb (allowed_path_match o)); [|contradiction].
  intros [<-|[]]. now apply truthy_app_r.
Qed.

Lemma filter_truthy_all (l : list string) :
  (forall e, In e l -> truthy e = true) -> filter truthy l = l.
Proof.
  induction l as [|x l IH]; [reflexivity|]. intros H. cbn [filter].
  rewrite (H x (or_introl eq_refl)), IH; [reflexivity|].
  intros e He. apply H. now right.
Qed.

(** No message of the checks is empty, so filtering drops nothing. *)
Lemma checks_truthy (self : FilesConfig.t) :
  filter truthy (checks fs self) = checks fs self.
Proof.
  apply filter_truthy_all. intros e He. unfold checks in He.
  apply in_app_or in He. destruct He as [He|He].
  { destruct (negb (truthy_opt (FilesConfig.path self))
              && negb (truthy_list (FilesConfig.files self)));
      [destruct He as [<-|[]]; reflexivity | contradiction]. }
  apply in_app_or in He. destruct He as [He|He];
    [exact (verify_path_truthy fs self e He)|].
  apply in_app_or in He. destruct He as [He|He];
    [|exact (verify_out_folder_truthy self e He)].
  unfold FilesConfig._verify_files in He.
  destruct (FilesConfig.files self) as [fl|]; [|contradiction].
  apply in_flat_map in He. destruct He as (f & _ & He).
  exact (verify_file_truthy fs self f e He).
Qed.

Lemma verify_unfold (self : FilesConfig.t) :
  FilesConfig.verify fs self
  = match checks fs self with
    | [] => match FilesConfig._fix_paths fs self with
            | Ok self' => Ok ([], self')
            | Raise e => Raise e
            end
    | errs => Ok (errs, self)
    end.
Proof.
  unfold FilesConfig.verify.
  match goal with
  | |- context [filter truthy ?l] =>
      replace l with (checks fs self)
        by (unfold checks; now rewrite !app_assoc)
  end.
  rewrite checks_truthy. now destruct (checks fs self).
Qed.

(** X2.  The list that [verify] returns is the list of the errors of its
    checks with nothing dropped: the filter of empty strings removes
    none, since every message is non-empty.  The errors come in the
    order missing input, directory, entries in list order, folder
    name. *)
Theorem verify_reports_every_check
        (self self' : FilesConfig.t) (errs : list string) :
  FilesConfig.verify fs self = Ok (errs, self') ->
  errs = ((if negb (truthy_opt (FilesConfig.path self))
              && negb (truthy_list (FilesConfig.files self))
           then ["at least one of -i or -f must be present"] else [])
            ++ FilesConfig._verify_path fs self
            ++ flat_map (FilesConfig.verify_file fs self)
                 (match FilesConfig.files self with
                  | Some l => l
                  | None => []
                  end)
            ++ FilesConfig._verify_out_folder self)%list.
Proof.
  rewrite verify_unfold. intros H.
  assert (Hc : errs = checks fs self).
  { destruct (checks fs self) as [|e l].
    - destruct (FilesConfig._fix_paths fs self); [|discriminate].
      now injection H as <- _.
    - now injection H as <- _. }
  rewrite Hc. unfold checks, FilesConfig._verify_files.
  now destruct (FilesConfig.files self).
Qed.

End Checks.

Section Anchoring.

Variable fs : FS.filesystem.
Hypothesis Hcwd : cwd_names fs.












End Anchoring.

Section Shape.

Variable fs : FS.filesystem.

(** X5.  A successful [verify] leaves the directory and the folder name
    as they were and sets the file list to absolute paths; when a
    non-empty list was given, it is that list with every entry joined
    to the absolute base directory, in the same order. *)
Theorem verify_success_shape (self self' : FilesConfig.t) :
  FilesConfig.verify fs self = Ok ([], self') ->
  FilesConfig.path self' = FilesConfig.path self
  /\ FilesConfig.out_folder self' = FilesConfig.out_folder self
  /\ exists l,
      FilesConfig.files self' = Some l
      /\ forallb isabs l = true
      /\ forall given,
          FilesConfig.files self = Some given -> given <> [] ->
          l = map (join (FilesConfig.local_path fs self)) given.
Proof.
  intros Hv.
  destruct (verify_cases fs self) as [(errs & Hne & E) | (r & Hr & Hfix & _)].
  { rewrite Hv in E. injection E as <- _. contradiction. }
  subst r. rewrite Hv in Hfix.
  destruct (fix_paths_result fs _ _ Hfix) as (Hp & Ho & l & Hl & Habs & Horigin).
  split; [exact Hp|]. split; [exact Ho|]. exists l.
  split; [exact Hl|]. split; [exact Habs|].
  intros given Hgiven Hne.
  destruct Horigin as [(_ & _ & Hmap) | (Hfalsy & _)].
  - rewrite Hl, Hgiven in Hmap. now injection Hmap.
  - rewrite Hgiven in Hfalsy. destruct given; [contradiction | discriminate].
Qed.

(** X6.  A successful [verify] leaves a given list of absolute paths
    exactly as it was, whatever directory was given with it. *)
Theorem absolute_entries_unchanged
        (self self' : FilesConfig.t) (given : list string) :
  FilesConfig.verify fs self = Ok ([], self') ->
  FilesConfig.files self = Some given ->
  given <> [] ->
  forallb isabs given = true ->
  FilesConfig.files self' = Some given.
Proof.
  intros Hv Hgiven Hne Habs.
  destruct (verify_cases fs self) as [(errs & Hne' & E) | (r & Hr & Hfix & _)].
  { rewrite Hv in E. injection E as <- _. contradiction. }
  subst r. rewrite Hv in Hfix. unfold FilesConfig._fix_paths in Hfix.
  rewrite Hgiven in Hfix. destruct given as [|x xs]; [contradiction|].
  injection Hfix as <-. cbn [FilesConfig.files]. f_equal.
  exact (map_join_isabs _ (x :: xs) Habs).
Qed.

Lemma isfile_exists (f : string) : FS.isfile fs f = true -> FS.exists_ fs f = true.
Proof.
  unfold FS.isfile, FS.exists_. now destruct (FS.resolve fs f) as [[|]|].
Qed.

Lemma verify_files_regular (self : FilesConfig.t) (l : list string) :
  (forall g, In g l -> FS.isfile fs g = true) ->
  flat_map (FilesConfig.verify_file fs self) l = [].
Proof.
  induction l as [|g l IH]; [reflexivity|]. intros H. cbn [flat_map].
  rewrite IH by (intros g' Hg'; apply H; now right).
  unfold FilesConfig.verify_file.
  now rewrite (isfile_exists g (H g (or_introl eq_refl))),
    (H g (or_introl eq_refl)).
Qed.

(** X3.  Errors are counted per entry: when one entry of the list exists
    neither as given nor under the directory, and every other entry is
    a regular file as given, [_verify_files] returns exactly one error,
    the one naming that entry. *)
Theorem one_missing_entry_one_error
        (self : FilesConfig.t) (before after : list string) (f : string) :
  FilesConfig.files self = Some (before ++ f :: after)%list ->
  (forall g, In g (before ++ after)%list -> FS.isfile fs g = true) ->
  FS.exists_ fs f = false ->
  match FilesConfig.path self with
  | Some p => truthy p = true -> FS.exists_ fs (join p f) = false
  | None => True
  end ->
  FilesConfig._verify_files fs self
  = [match FilesConfig.path self with
     | Some p => if truthy p then f ++ " does not exist on path " ++ p
                 else f ++ " does not exist"
     | None => f ++ " does not exist"
     end].
Proof.
  intros Hfiles Hothers Hf Hpath.
  unfold FilesConfig._verify_files. rewrite Hfiles, flat_map_app.
  cbn [flat_map].
  rewrite !verify_files_regular
    by (intros g Hg; apply Hothers, in_or_app; auto).
  rewrite app_nil_r. cbn [app]. unfold FilesConfig.verify_file.
  rewrite Hf. cbn [negb].
  destruct (FilesConfig.path self) as [p|]; [|reflexivity].
  destruct (truthy p); [|reflexivity]. now rewrite (Hpath eq_refl).
Qed.

End Shape.

(** *** The folder name and the file list argument *)

(** X13.  [_verify_out_folder] reports nothing exactly when the folder
    name is absent or empty, or is a non-empty word over
    [a-zA-Z0-9._-] optionally followed by one newline. *)
Theorem out_folder_accepted_iff (self : FilesConfig.t) :
  FilesConfig._verify_out_folder self = []
  <-> (truthy_opt (FilesConfig.out_folder self) = false
       \/ exists w,
           w <> "" /\ all_allowed w = true
           /\ (FilesConfig.out_folder self = Some w
               \/ FilesConfig.out_folder self = Some (w ++ newline))).
Proof.
  unfold FilesConfig._verify_out_folder, truthy_opt.
  destruct (FilesConfig.out_folder self) as [o|]; [|split; auto].
  destruct (truthy o) eqn:Ht; cbn [negb]; [|split; auto].
  destruct (allowed_path_match o) eqn:Hm; cbn [negb].
  - split; [|reflexivity]. intros _. right.
    apply allowed_path_match_spec in Hm. destruct Hm as (w & Hne & Hw & Ho).
    exists w. split; [exact Hne|]. split; [exact Hw|].
    destruct Ho as [-> | ->]; auto.
  - split; [discriminate|]. intros [H | (w & Hne & Hw & Ho)]; [discriminate|].
    assert (Hm' : allowed_path_match o = true).
    { apply allowed_path_match_spec. exists w. split; [exact Hne|].
      split; [exact Hw|]. destruct Ho as [[= ->] | [= ->]]; auto. }
    congruence.
Qed.

Lemma concat_split (c : ascii) (s : string) :
  String.concat (String c "") (split c s) = s.
Proof.
  induction s as [|x s IH]; [reflexivity|]. cbn [split].
  destruct (Ascii.eqb x c) eqn:Hx.
  - apply Ascii.eqb_eq in Hx. subst x.
    destruct (split c s) as [|w ws] eqn:Hs; [now apply split_not_nil in Hs|].
    change (String.concat (String c "") ("" :: w :: ws))
      with (String c (String.concat (String c "") (w :: ws))).
    now rewrite IH.
  - destruct (split c s) as [|w ws] eqn:Hs; [now apply split_not_nil in Hs|].
    destruct ws as [|w' ws]; cbn in IH |- *; now rewrite IH.
Qed.

Lemma split_parts_free (c : ascii) (s : string) :
  forallb (fun e => negb (contains c e)) (split c s) = true.
Proof.
  induction s as [|x s IH]; [reflexivity|]. cbn [split].
  destruct (Ascii.eqb x c) eqn:Hx; [exact IH|].
  destruct (split c s) as [|w ws]; cbn [forallb contains] in *;
    rewrite Hx; [reflexivity|].
  apply andb_true_iff in IH. destruct IH as [Hw Hws].
  cbn [orb]. now rewrite Hw, Hws.
Qed.

(** X10.  A non-empty [-f] argument is split at its commas: there is at
    least one entry, no entry contains a comma, and the entries joined
    with commas give back the argument. *)
Theorem file_list_split_round_trip
        (fs : FS.filesystem) (path out : option string) (raw : string) :
  truthy raw = true ->
  exists entries,
    FilesConfig.files (FilesConfig.__init__ fs path (Some raw) out)
    = Some entries
    /\ entries <> []
    /\ String.concat "," entries = raw
    /\ forallb (fun e => negb (contains "," e)) entries = true.
Proof.
  intros Ht. exists (split "," raw). cbn [FilesConfig.__init__ FilesConfig.files].
  rewrite Ht. split; [reflexivity|]. split; [apply split_not_nil|].
  split; [apply concat_split | apply split_parts_free].
Qed.

(** ** Further properties of the stages *)

Section Stages.

Variable RS : Type.
Variable office365 : client RS.
Variable fs : FS.filesystem.

Lemma bind_inv {A B : Type} (m : M RS A) (k : A -> M RS B)
      (s s' : RS) (r : result B) (tr : list event) :
  bind m k s = (r, (tr, s')) ->
  (exists e, m s = (Raise e, (tr, s')) /\ r = Raise e)
  \/ (exists a t1 s1 t2,
         m s = (Ok a, (t1, s1)) /\ k a s1 = (r, (t2, s'))
         /\ tr = (t1 ++ t2)%list).
Proof.
  unfold bind. destruct (m s) as [[a|e] [t1 s1]].
  - destruct (k a s1) as [r2 [t2 s2]] eqn:Hk. intros [= <- <- <-].
    right. now exists a, t1, s1, t2.
  - intros [= <- <- <-]. left. now exists e.
Qed.

(** [get_token] computes the url, then asks for the token once. *)
Lemma get_token_eq (self : Sharepoint.t) (s : RS) :
  Sharepoint.get_token RS office365 self s
  = match session_url (Sharepoint._spconfig self) with
    | Raise e => (Raise e, ([], s))
    | Ok url =>
        match acquire_token_for_app office365 s url
                (SharepointConfig.client (Sharepoint._spconfig self))
                (SharepointConfig.secret (Sharepoint._spconfig self)) with
        | (Ok _, s1) =>
            (Ok {| Sharepoint._fconfig := Sharepoint._fconfig self;
                   Sharepoint._spconfig := Sharepoint._spconfig self;
                   Sharepoint._runtime := Sharepoint._runtime self;
                   Sharepoint._url := url |},
             (((if RuntimeConfig.debug (Sharepoint._runtime self)
                then [LogDebug (ReprUrl url)] else [])
                 ++ [NetAcquireToken url
                       (SharepointConfig.client (Sharepoint._spconfig self))
                       (SharepointConfig.secret (Sharepoint._spconfig self))])%list,
              s1))
        | (Raise e, s1) =>
            (Raise e,
             (((if RuntimeConfig.debug (Sharepoint._runtime self)
                then [LogDebug (ReprUrl url)] else [])
                 ++ [NetAcquireToken url
                       (SharepointConfig.client (Sharepoint._spconfig self))
                       (SharepointConfig.secret (Sharepoint._spconfig self))])%list,
              s1))
        end
    end.
Proof.
  unfold Sharepoint.get_token, bind, lift, call, when, emit, ret.
  cbv zeta. fold (session_url (Sharepoint._spconfig self)).
  destruct (session_url (Sharepoint._spconfig self)) as [url|e]; [|reflexivity].
  destruct (RuntimeConfig.debug (Sharepoint._runtime self)); cbv beta iota;
    destruct (acquire_token_for_app office365 s url _ _) as [[[]|e] s1];
    reflexivity.
Qed.

Lemma session_url_str (spc : SharepointConfig.t) (site : string) :
  SharepointConfig.site spc = YStr site ->
  session_url spc = Ok (YStr (target_url site (SharepointConfig.subsite spc))).
Proof.
  unfold session_url, target_url. intros ->.
  destruct (truthy_opt (SharepointConfig.subsite spc)); [|reflexivity].
  cbn [str_add]. now rewrite append_assoc.
Qed.

Lemma verify_url_eq (self : Sharepoint.t) (s : RS) :
  Sharepoint.verify_url RS office365 self s
  = match web_get office365 s (Sharepoint._url self) with
    | (Ok (title, url), s1) =>
        (Ok true,
         ([NetGetWeb (Sharepoint._url self);
           LogSuccess ("Site " ++ title ++ ": " ++ url)], s1))
    | (Raise (ClientRequestException msg), s1) =>
        (Ok false, ([NetGetWeb (Sharepoint._url self); LogError msg], s1))
    | (Raise e, s1) => (Raise e, ([NetGetWeb (Sharepoint._url self)], s1))
    end.
Proof.
  unfold Sharepoint.verify_url, Sharepoint.query, bind, emit, ret.
  destruct (web_get office365 s (Sharepoint._url self)) as [[[title url]|[]] s1];
    reflexivity.
Qed.

Lemma add_folder_eq (self : Sharepoint.t) (s : RS) :
  Sharepoint.add_folder RS office365 self s
  = match folder_add office365 s (Sharepoint._url self)
            (FilesConfig.out_folder (Sharepoint._fconfig self)) with
    | (Ok serverRelativeUrl, s1) =>
        (Ok true,
         ([NetAddFolder (Sharepoint._url self)
             (FilesConfig.out_folder (Sharepoint._fconfig self));
           LogSuccess ("Added folder: " ++ serverRelativeUrl)], s1))
    | (Raise (ClientRequestException msg), s1) =>
        (Ok false,
         ([NetAddFolder (Sharepoint._url self)
             (FilesConfig.out_folder (Sharepoint._fconfig self));
           LogError msg], s1))
    | (Raise e, s1) =>
        (Raise e,
         ([NetAddFolder (Sharepoint._url self)
             (FilesConfig.out_folder (Sharepoint._fconfig self))], s1))
    end.
Proof.
  unfold Sharepoint.add_folder, Sharepoint.query, bind, emit, ret.
  destruct (folder_add office365 s _ _) as [[url|[]] s1]; reflexivity.
Qed.

(** The body of the [try] statement, stage by stage. *)
Lemma upload_eq (self : Uploader.t) (fconf : FilesConfig.t)
      (spconf : SharepointConfig.t) (runtime : RuntimeConfig.t) (s : RS) :
  Uploader.upload RS office365 fs self fconf spconf runtime s
  = match Sharepoint.get_token RS office365
            (Sharepoint.__init__ fconf spconf runtime) s with
    | (Raise e, (t1, s1)) => (Raise e, (t1, s1))
    | (Ok sp, (t1, s1)) =>
        let t1 := (t1 ++ (if Uploader._debug self
                          then [LogDebug (ReprSharepoint (Sharepoint._url sp))]
                          else []))%list in
        match Sharepoint.verify_url RS office365 sp s1 with
        | (Raise e, (t2, s2)) => (Raise e, ((t1 ++ t2)%list, s2))
        | (Ok false, (t2, s2)) => (Ok Uploader.ReturnNoSite, ((t1 ++ t2)%list, s2))
        | (Ok true, (t2, s2)) =>
            let added :=
              if truthy_opt (FilesConfig.out_folder fconf)
              then Sharepoint.add_folder RS office365 sp s2
              else (Ok true, ([], s2)) in
            match added with
            | (Raise e, (t3, s3)) => (Raise e, ((t1 ++ t2 ++ t3)%list, s3))
            | (Ok false, (t3, s3)) =>
                (Ok Uploader.ReturnNoFolder, ((t1 ++ t2 ++ t3)%list, s3))
            | (Ok true, (t3, s3)) =>
                match Sharepoint.upload_files RS office365 fs sp s3 with
                | (Ok all, (t4, s4)) =>
                    (Ok (Uploader.ReturnUploaded all),
                     ((t1 ++ t2 ++ t3 ++ t4)%list, s4))
                | (Raise e, (t4, s4)) =>
                    (Raise e, ((t1 ++ t2 ++ t3 ++ t4)%list, s4))
                end
            end
        end
    end.
Proof.
  unfold Uploader.upload, bind.
  destruct (Sharepoint.get_token RS office365 _ s) as [[sp|e] [t1 s1]];
    [|reflexivity].
  cbv zeta.
  assert (Hwhen : when (Uploader._debug self)
                    (emit (LogDebug (ReprSharepoint (Sharepoint._url sp)))) s1
                  = (Ok tt, ((if Uploader._debug self
                              then [LogDebug (ReprSharepoint (Sharepoint._url sp))]
                              else []), s1))).
  { unfold when, emit, ret. now destruct (Uploader._debug self). }
  rewrite Hwhen.
  destruct (Sharepoint.verify_url RS office365 sp s1) as [[[|]|e] [t2 s2]];
    cbn [negb]; unfold ret; rewrite ?app_nil_r, <- ?app_assoc; try reflexivity.
  destruct (truthy_opt (FilesConfig.out_folder fconf)).
  - destruct (Sharepoint.add_folder RS office365 sp s2) as [[[|]|e] [t3 s3]];
      cbn [negb]; rewrite ?app_nil_r, <- ?app_assoc; try reflexivity.
    destruct (Sharepoint.upload_files RS office365 fs sp s3) as [[all|e] [t4 s4]];
      rewrite ?app_nil_r, <- ?app_assoc; reflexivity.
  - cbn [app].
    destruct (Sharepoint.upload_files RS office365 fs sp s2) as [[all|e] [t4 s4]];
      rewrite ?app_nil_r, <- ?app_assoc; reflexivity.
Qed.

(** Progress reports are neither remote calls nor log lines. *)
Lemma report_progress_bars (self : Sharepoint.t) (offsets : list Z)
      (pbar : tqdm) (s : RS) :
  exists r tp,
    Sharepoint.report_progress RS self pbar offsets s = (r, (tp, s))
    /\ filter is_network tp = []
    /\ filter (fun e => negb (is_debug e)) tp = tp
    /\ uploads_attempted tp = []
    /\ existsb is_failure_log tp = false.
Proof.
  revert pbar. induction offsets as [|o os IH]; intros pbar.
  - now exists (Ok pbar), [].
  - cbn [Sharepoint.report_progress]. unfold bind, lift, emit.
    destruct (Sharepoint.display_upload_progress self pbar o) as [pbar'|e].
    + destruct (IH pbar') as (r & tp & -> & Hn & Hd & Hu & Hf).
      exists r, (Progress pbar' :: tp). cbn. now rewrite Hd.
    + now exists (Raise e), [].
Qed.

(** One iteration of the loop, whatever its outcome. *)
Lemma upload_file_trace (self : Sharepoint.t) (f : string) (s s' : RS)
      (r : result bool) (tr : list event) :
  Sharepoint.upload_file RS office365 fs self f s = (r, (tr, s')) ->
  filter is_network tr
  = map (fun g => NetUpload (Sharepoint._url self)
                    (FilesConfig.out_folder (Sharepoint._fconfig self)) g
                    (RuntimeConfig.chunk_size (Sharepoint._runtime self)))
        (uploads_attempted tr)
  /\ filter (fun e => negb (is_debug e)) tr = tr
  /\ (r = Ok true -> existsb is_failure_log tr = false).
Proof.
  unfold Sharepoint.upload_file, bind, emit, lift.
  destruct (FS.getsize fs f) as [size|e].
  2:{ intros [= <- <- <-]. repeat split; try discriminate. }
  destruct (create_upload_session office365 s _ _ f _) as [[offsets res] s1].
  cbn [fst snd].
  destruct (report_progress_bars self offsets {| total := size; n := 0 |} s1)
    as (rp & tp & -> & Hn & Hd & Hu & Hf).
  destruct rp as [pbar|e].
  - destruct res as [url|[]]; unfold ret, raise; intros [= <- <- <-];
      cbn [app filter is_network is_debug negb uploads_attempted map
           existsb is_failure_log orb];
      rewrite ?filter_app, ?uploads_attempted_app, ?existsb_app, ?Hn, ?Hd,
        ?Hu, ?Hf, ?app_nil_r;
      cbn [app filter is_network is_debug negb uploads_attempted map
           existsb is_failure_log orb];
      repeat split; try reflexivity; discriminate.
  - intros [= <- <- <-].
    cbn [app filter is_network is_debug negb uploads_attempted map].
    rewrite Hn, Hd, Hu. repeat split; try discriminate.
Qed.

Lemma upload_loop_trace (self : Sharepoint.t) (files : list string)
      (s s' : RS) (r : result bool) (tr : list event) :
  Sharepoint.upload_loop RS office365 fs self files s = (r, (tr, s')) ->
  filter is_network tr
  = map (fun g => NetUpload (Sharepoint._url self)
                    (FilesConfig.out_folder (Sharepoint._fconfig self)) g
                    (RuntimeConfig.chunk_size (Sharepoint._runtime self)))
        (uploads_attempted tr)
  /\ filter (fun e => negb (is_debug e)) tr = tr
  /\ (r = Ok true -> existsb is_failure_log tr = false).
Proof.
  revert s s' r tr. induction files as [|f files IH]; intros s s' r tr.
  - intros [= <- <- <-]. repeat split.
  - cbn [Sharepoint.upload_loop]. intros H.
    apply bind_inv in H.
    destruct H as [(e & Hf & ->) | (b & t1 & s1 & t2 & Hf & Hk & ->)].
    + destruct (upload_file_trace _ _ _ _ _ _ Hf) as (Hn & Hd & _).
      repeat split; auto; try discriminate.
    + destruct (upload_file_trace _ _ _ _ _ _ Hf) as (Hn & Hd & Hq).
      rewrite !filter_app, uploads_attempted_app, map_app, existsb_app.
      destruct b.
      * destruct (IH _ _ _ _ Hk) as (Hn2 & Hd2 & Hq2).
        rewrite Hn, Hn2, Hd, Hd2. repeat split.
        intros Hr. now rewrite (Hq eq_refl), (Hq2 Hr).
      * unfold ret in Hk. injection Hk as <- <- <-.
        rewrite Hn, Hd. repeat split; try discriminate.
Qed.

End Stages.

(** ** Further properties of uploading *)

Section MoreUploading.

Variable RS : Type.
Variable office365 : client RS.
Variable fs : FS.filesystem.
Variable self : Sharepoint.t.

(** X21.  When a file of the list cannot be sized, the exception of
    [os.path.getsize] leaves [upload_files] after the start of that
    upload has been logged: no session is started for that file or any
    later one. *)
Theorem missing_file_at_upload_raises
        (done rest : list string) (f : string) (s s1 : RS)
        (tr1 : list event) (e : exn) :
  FilesConfig.files (Sharepoint._fconfig self) = Some (done ++ f :: rest)%list ->
  Sharepoint.upload_loop RS office365 fs self done s = (Ok true, (tr1, s1)) ->
  FS.getsize fs f = Raise e ->
  Sharepoint.upload_files RS office365 fs self s
  = (Raise e, ((tr1 ++ [LogInfo ("File upload: " ++ basename f)])%list, s1))
  /\ uploads_attempted (tr1 ++ [LogInfo ("File upload: " ++ basename f)]) = done.
Proof.
  intros Hfiles Hdone Hsize. unfold Sharepoint.upload_files. rewrite Hfiles.
  rewrite (upload_loop_app RS office365 fs self _ _ _ _ _ Hdone).
  cbn [Sharepoint.upload_loop]. unfold bind at 1.
  unfold Sharepoint.upload_file, bind, emit, lift. rewrite Hsize.
  split; [reflexivity|].
  destruct (uploads_in_order RS office365 fs self _ _ _ _ _ Hdone) as (_ & Htrue & _).
  rewrite uploads_attempted_app, (Htrue eq_refl). cbn. apply app_nil_r.
Qed.

(** X22.  [upload_files] absorbs [ClientRequestException] only: any
    other exception raised by the upload request leaves [upload_files]
    without an error being logged there, and no later file is
    attempted. *)
Theorem other_exception_passes_through
        (done rest : list string) (f : string) (s s1 s2 : RS)
        (tr1 : list event) (size z : Z) (offsets : list Z) (e : exn) :
  FilesConfig.files (Sharepoint._fconfig self) = Some (done ++ f :: rest)%list ->
  Sharepoint.upload_loop RS office365 fs self done s = (Ok true, (tr1, s1)) ->
  FS.getsize fs f = Ok size ->
  RuntimeConfig.chunk_size (Sharepoint._runtime self) = YInt z ->
  create_upload_session office365 s1 (Sharepoint._url self)
    (FilesConfig.out_folder (Sharepoint._fconfig self)) f (YInt z)
  = ((offsets, Raise e), s2) ->
  (forall msg, e <> ClientRequestException msg) ->
  exists tr2,
    Sharepoint.upload_files RS office365 fs self s
    = (Raise e, ((tr1 ++ tr2)%list, s2))
    /\ uploads_attempted (tr1 ++ tr2) = (done ++ [f])%list
    /\ existsb is_failure_log tr2 = false.
Proof.
  intros Hfiles Hdone Hsize Hchunk Hsession Hother.
  pose (tr2 := (LogInfo ("File upload: " ++ basename f)
                :: NetUpload (Sharepoint._url self)
                     (FilesConfig.out_folder (Sharepoint._fconfig self))
                     f (YInt z)
                :: bars z {| total := size; n := 0 |} (length offsets))).
  assert (Hf : Sharepoint.upload_file RS office365 fs self f s1
               = (Raise e, (tr2, s2))).
  { unfold Sharepoint.upload_file, bind, emit, lift.
    rewrite Hsize, Hchunk, Hsession. cbn [fst snd].
    rewrite (report_progress_int RS self z Hchunk). unfold raise.
    destruct e; try (cbn [app]; now rewrite app_nil_r).
    now destruct (Hother message). }
  assert (Hbars : forall k p, existsb is_failure_log (bars z p k) = false).
  { induction k; intros p; simpl; auto. }
  exists tr2. unfold Sharepoint.upload_files. rewrite Hfiles.
  rewrite (upload_loop_app RS office365 fs self _ _ _ _ _ Hdone).
  cbn [Sharepoint.upload_loop]. unfold bind at 1. rewrite Hf.
  split; [reflexivity|].
  destruct (uploads_in_order RS office365 fs self _ _ _ _ _ Hdone) as (_ & Htrue & _).
  rewrite uploads_attempted_app, (Htrue eq_refl). split.
  - f_equal. unfold tr2. cbn [uploads_attempted].
    now rewrite uploads_attempted_bars.
  - unfold tr2. cbn [existsb is_failure_log orb]. apply Hbars.
Qed.

End MoreUploading.

(** ** Further properties of the orchestrator *)

Section Runs.

Variable RS : Type.
Variable office365 : client RS.
Variable fs : FS.filesystem.
Variable config_yaml : config_file.
Variable self : Uploader.t.

(** X15.  [get_token] has no handler of its own: when the token request
    raises, whatever the exception, the run ends in the handler of
    [main] with that exception logged last, after the token request as
    its only remote call and with no other error logged. *)
Theorem auth_failure_is_caught
        (spconf : SharepointConfig.t) (runtime : RuntimeConfig.t)
        (fconf : FilesConfig.t) (site : string) (s s1 : RS) (e : exn) :
  SharepointConfig.__init__ config_yaml (Uploader._subsite self) = Ok spconf ->
  RuntimeConfig.__init__ config_yaml (Uploader._debug self) = Ok runtime ->
  FilesConfig.verify fs
    (FilesConfig.__init__ fs (Uploader._path self) (Uploader._files self)
                          (Uploader._out self))
  = Ok ([], fconf) ->
  SharepointConfig.site spconf = YStr site ->
  acquire_token_for_app office365 s
    (YStr (target_url site (SharepointConfig.subsite spconf)))
    (SharepointConfig.client spconf) (SharepointConfig.secret spconf)
  = (Raise e, s1) ->
  exists tr,
    Uploader.main RS office365 fs config_yaml self s
    = (Ok (Uploader.ReturnCaught e), ((tr ++ [LogException e])%list, s1))
    /\ filter is_network tr
       = [NetAcquireToken
            (YStr (target_url site (SharepointConfig.subsite spconf)))
            (SharepointConfig.client spconf) (SharepointConfig.secret spconf)]
    /\ existsb is_failure_log tr = false.
Proof.
  intros Hsp Hrt Hv Hsite Hacq.
  pose proof (main_after_verify RS office365 fs config_yaml self
                _ _ _ _ s Hsp Hrt Hv) as Hmain.
  cbv zeta in Hmain. rewrite upload_eq, get_token_eq in Hmain.
  cbn [Sharepoint.__init__ Sharepoint._spconfig Sharepoint._runtime] in Hmain.
  rewrite (session_url_str _ _ Hsite), Hacq in Hmain.
  eexists. split; [rewrite Hmain; now rewrite !app_assoc|].
  destruct (Uploader._debug self), (RuntimeConfig.debug runtime);
    split; reflexivity.
Qed.

(** X16.  When the site query fails with a [ClientRequestException],
    [main] logs the server's message as its only error and returns; the
    remote calls made are the token request and the site query, so no
    folder is added and nothing is uploaded. *)
Theorem site_query_failure_stops_run
        (spconf : SharepointConfig.t) (runtime : RuntimeConfig.t)
        (fconf : FilesConfig.t) (site msg : string) (s s1 s2 : RS) :
  SharepointConfig.__init__ config_yaml (Uploader._subsite self) = Ok spconf ->
  RuntimeConfig.__init__ config_yaml (Uploader._debug self) = Ok runtime ->
  FilesConfig.verify fs
    (FilesConfig.__init__ fs (Uploader._path self) (Uploader._files self)
                          (Uploader._out self))
  = Ok ([], fconf) ->
  SharepointConfig.site spconf = YStr site ->
  acquire_token_for_app office365 s
    (YStr (target_url site (SharepointConfig.subsite spconf)))
    (SharepointConfig.client spconf) (SharepointConfig.secret spconf)
  = (Ok tt, s1) ->
  web_get office365 s1 (YStr (target_url site (SharepointConfig.subsite spconf)))
  = (Raise (ClientRequestException msg), s2) ->
  exists tr,
    Uploader.main RS office365 fs config_yaml self s
    = (Ok Uploader.ReturnNoSite, (tr, s2))
    /\ filter is_network tr
       = [NetAcquireToken
            (YStr (target_url site (SharepointConfig.subsite spconf)))
            (SharepointConfig.client spconf) (SharepointConfig.secret spconf);
          NetGetWeb (YStr (target_url site (SharepointConfig.subsite spconf)))]
    /\ logged_errors tr = [msg].
Proof.
  intros Hsp Hrt Hv Hsite Hacq Hweb.
  pose proof (main_after_verify RS office365 fs config_yaml self
                _ _ _ _ s Hsp Hrt Hv) as Hmain.
  cbv zeta in Hmain. rewrite upload_eq, get_token_eq in Hmain.
  cbn [Sharepoint.__init__ Sharepoint._spconfig Sharepoint._runtime] in Hmain.
  rewrite (session_url_str _ _ Hsite), Hacq in Hmain. cbv zeta in Hmain.
  rewrite verify_url_eq in Hmain. cbn [Sharepoint._url] in Hmain.
  rewrite Hweb in Hmain.
  eexists. split; [exact Hmain|].
  destruct (Uploader._debug self), (RuntimeConfig.debug runtime);
    split; reflexivity.
Qed.

(** X17.  When adding the folder fails with a
    [ClientRequestException], [main] logs the server's message as its
    only error and returns without starting any upload. *)
Theorem folder_failure_stops_run
        (spconf : SharepointConfig.t) (runtime : RuntimeConfig.t)
        (fconf : FilesConfig.t) (site msg title weburl : string)
        (s s1 s2 s3 : RS) :
  SharepointConfig.__init__ config_yaml (Uploader._subsite self) = Ok spconf ->
  RuntimeConfig.__init__ config_yaml (Uploader._debug self) = Ok runtime ->
  FilesConfig.verify fs
    (FilesConfig.__init__ fs (Uploader._path self) (Uploader._files self)
                          (Uploader._out self))
  = Ok ([], fconf) ->
  SharepointConfig.site spconf = YStr site ->
  truthy_opt (FilesConfig.out_folder fconf) = true ->
  acquire_token_for_app office365 s
    (YStr (target_url site (SharepointConfig.subsite spconf)))
    (SharepointConfig.client spconf) (SharepointConfig.secret spconf)
  = (Ok tt, s1) ->
  web_get office365 s1 (YStr (target_url site (SharepointConfig.subsite spconf)))
  = (Ok (title, weburl), s2) ->
  folder_add office365 s2
    (YStr (target_url site (SharepointConfig.subsite spconf)))
    (FilesConfig.out_folder fconf)
  = (Raise (ClientRequestException msg), s3) ->
  exists tr,
    Uploader.main RS office365 fs config_yaml self s
    = (Ok Uploader.ReturnNoFolder, (tr, s3))
    /\ uploads_attempted tr = []
    /\ logged_errors tr = [msg].
Proof.
  intros Hsp Hrt Hv Hsite Hout Hacq Hweb Hadd.
  pose proof (main_after_verify RS office365 fs config_yaml self
                _ _ _ _ s Hsp Hrt Hv) as Hmain.
  cbv zeta in Hmain. rewrite upload_eq, get_token_eq in Hmain.
  cbn [Sharepoint.__init__ Sharepoint._spconfig Sharepoint._runtime] in Hmain.
  rewrite (session_url_str _ _ Hsite), Hacq in Hmain. cbv zeta in Hmain.
  rewrite verify_url_eq in Hmain. cbn [Sharepoint._url] in Hmain.
  rewrite Hweb, Hout, add_folder_eq in Hmain.
  cbn [Sharepoint.__init__ Sharepoint._url Sharepoint._fconfig] in Hmain.
  rewrite Hadd in Hmain.
  eexists. split; [exact Hmain|].
  destruct (Uploader._debug self), (RuntimeConfig.debug runtime);
    split; reflexivity.
Qed.

Lemma upload_files_calls (sp : Sharepoint.t) (s s' : RS)
      (r : result bool) (tr : list event) :
  Sharepoint.upload_files RS office365 fs sp s = (r, (tr, s')) ->
  (exists rest,
      map (fun g => NetUpload (Sharepoint._url sp)
                      (FilesConfig.out_folder (Sharepoint._fconfig sp)) g
                      (RuntimeConfig.chunk_size (Sharepoint._runtime sp)))
          (match FilesConfig.files (Sharepoint._fconfig sp) with
           | Some l => l
           | None => []
           end)
      = (filter is_network tr ++ rest)%list)
  /\ filter (fun e => negb (is_debug e)) tr = tr
  /\ (r = Ok true ->
      existsb is_failure_log tr = false
      /\ FilesConfig.files (Sharepoint._fconfig sp)
         = Some (uploads_attempted tr)).
Proof.
  unfold Sharepoint.upload_files.
  destruct (FilesConfig.files (Sharepoint._fconfig sp)) as [files|].
  - intros H.
    destruct (upload_loop_trace RS office365 fs sp files _ _ _ _ H)
      as (Hn & Hd & Hq).
    destruct (uploads_in_order RS office365 fs sp files _ _ _ _ H)
      as ((rest & Hrest) & Htrue & _).
    split; [|split].
    + exists (map (fun g => NetUpload (Sharepoint._url sp)
                      (FilesConfig.out_folder (Sharepoint._fconfig sp)) g
                      (RuntimeConfig.chunk_size (Sharepoint._runtime sp)))
                  rest).
      now rewrite Hn, <- map_app, <- Hrest.
    + exact Hd.
    + intros Hr. split; [exact (Hq Hr) | now rewrite (Htrue Hr)].
  - unfold raise. intros [= <- <- <-].
    split; [now exists [] | split; [reflexivity | discriminate]].
Qed.


(** X19.  A run that ends after [upload_files] returned [True] has
    passed validation, has started exactly one upload session per
    validated file, in order, and has logged no error. *)
Theorem complete_run_uploads_everything (s s' : RS) (tr : list event) :
  Uploader.main RS office365 fs config_yaml self s
  = (Ok (Uploader.ReturnUploaded true), (tr, s')) ->
  exists fconf,
    FilesConfig.verify fs
      (FilesConfig.__init__ fs (Uploader._path self) (Uploader._files self)
                            (Uploader._out self))
    = Ok ([], fconf)
    /\ FilesConfig.files fconf = Some (uploads_attempted tr)
    /\ existsb is_failure_log tr = false.
Proof.
  destruct (SharepointConfig.__init__ config_yaml (Uploader._subsite self))
    as [spconf|e1] eqn:Hsp.
  2:{ unfold Uploader.main, bind, lift. rewrite Hsp. discriminate. }
  destruct (RuntimeConfig.__init__ config_yaml (Uploader._debug self))
    as [runtime|e2] eqn:Hrt.
  2:{ unfold Uploader.main, bind, lift. rewrite Hsp, Hrt. discriminate. }
  destruct (FilesConfig.verify fs
              (FilesConfig.__init__ fs (Uploader._path self)
                 (Uploader._files self) (Uploader._out self)))
    as [[errs fconf]|e3] eqn:Hv.
  2:{ unfold Uploader.main, bind, lift. rewrite Hsp, Hrt, Hv. discriminate. }
  pose proof (main_after_verify RS office365 fs config_yaml self
                _ _ _ _ s Hsp Hrt Hv) as Hmain.
  cbv zeta in Hmain. rewrite Hmain. clear Hmain.
  destruct errs as [|v rest]; [|discriminate].
  rewrite upload_eq, get_token_eq.
  cbn [Sharepoint.__init__ Sharepoint._spconfig Sharepoint._runtime
       Sharepoint._fconfig Sharepoint._url].
  destruct (session_url spconf) as [url|e]; [|discriminate].
  destruct (acquire_token_for_app office365 s url _ _) as [[[]|e] s1];
    [|discriminate].
  cbv zeta. rewrite verify_url_eq. cbn [Sharepoint._url].
  destruct (web_get office365 s1 url) as [[[title weburl]|e] s2];
    [|destruct e; discriminate].
  intros H. exists fconf. split; [reflexivity|]. revert H.
  destruct (truthy_opt (FilesConfig.out_folder fconf)).
  - rewrite add_folder_eq. cbn [Sharepoint._url Sharepoint._fconfig].
    destruct (folder_add office365 s2 url _) as [[folder|e] s3];
      [|destruct e; discriminate].
    match goal with
    | |- context [Sharepoint.upload_files RS office365 fs ?sp s3] =>
        destruct (Sharepoint.upload_files RS office365 fs sp s3)
          as [r4 [t4 s4]] eqn:Hup;
        destruct (upload_files_calls sp _ _ _ _ Hup) as (_ & _ & Htrue)
    end.
    destruct r4 as [[|]|e]; try discriminate. intros [= <- <-].
    destruct (Htrue eq_refl) as [Hquiet Hfiles].
    cbn [Sharepoint._fconfig] in Hfiles.
    rewrite !uploads_attempted_app, !existsb_app, Hfiles.
    cbn [uploads_attempted existsb is_failure_log orb]. rewrite Hquiet.
    destruct (RuntimeConfig.debug runtime), (Uploader._debug self);
      split; reflexivity.
  - match goal with
    | |- context [Sharepoint.upload_files RS office365 fs ?sp s2] =>
        destruct (Sharepoint.upload_files RS office365 fs sp s2)
          as [r4 [t4 s4]] eqn:Hup;
        destruct (upload_files_calls sp _ _ _ _ Hup) as (_ & _ & Htrue)
    end.
    destruct r4 as [[|]|e]; try discriminate. intros [= <- <-].
    destruct (Htrue eq_refl) as [Hquiet Hfiles].
    cbn [Sharepoint._fconfig] in Hfiles.
    rewrite !uploads_attempted_app, !existsb_app, Hfiles.
    cbn [uploads_attempted existsb is_failure_log orb]. rewrite Hquiet.
    destruct (RuntimeConfig.debug runtime), (Uploader._debug self);
      split; reflexivity.
Qed.

End Runs.

(** ** The debug flag *)

Section Debug.

Variable RS : Type.
Variable office365 : client RS.
Variable fs : FS.filesystem.
Variable config_yaml : config_file.
Variable self : Uploader.t.

(** Uploading depends on the session only through the request, the
    url and the chunk size. *)
Lemma report_progress_ext (sp1 sp2 : Sharepoint.t) (offsets : list Z)
      (pbar : tqdm) (s : RS) :
  RuntimeConfig.chunk_size (Sharepoint._runtime sp1)
  = RuntimeConfig.chunk_size (Sharepoint._runtime sp2) ->
  Sharepoint.report_progress RS sp1 pbar offsets s
  = Sharepoint.report_progress RS sp2 pbar offsets s.
Proof.
  intros Hc. revert pbar. induction offsets as [|o os IH]; intros pbar;
    [reflexivity|].
  cbn [Sharepoint.report_progress]. unfold bind, lift, emit.
  unfold Sharepoint.display_upload_progress. rewrite Hc.
  destruct (tqdm_update pbar _) as [pbar'|e]; [|reflexivity].
  now rewrite IH.
Qed.

Lemma upload_loop_ext (sp1 sp2 : Sharepoint.t) (files : list string) (s : RS) :
  Sharepoint._fconfig sp1 = Sharepoint._fconfig sp2 ->
  Sharepoint._url sp1 = Sharepoint._url sp2 ->
  RuntimeConfig.chunk_size (Sharepoint._runtime sp1)
  = RuntimeConfig.chunk_size (Sharepoint._runtime sp2) ->
  Sharepoint.upload_loop RS office365 fs sp1 files s
  = Sharepoint.upload_loop RS office365 fs sp2 files s.
Proof.
  intros Hf Hu Hc. revert s. induction files as [|f files IH]; intros s;
    [reflexivity|].
  cbn [Sharepoint.upload_loop].
  assert (Hfile : Sharepoint.upload_file RS office365 fs sp1 f s
                  = Sharepoint.upload_file RS office365 fs sp2 f s).
  { unfold Sharepoint.upload_file, bind, emit, lift. rewrite Hf, Hu, Hc.
    destruct (FS.getsize fs f) as [size|e]; [|reflexivity].
    destruct (create_upload_session office365 s _ _ f _) as [[offsets res] s1].
    cbn [fst snd]. now rewrite (report_progress_ext sp1 sp2 _ _ _ Hc). }
  unfold bind. rewrite Hfile.
  destruct (Sharepoint.upload_file RS office365 fs sp2 f s) as [[[|]|e] [t1 s1]];
    try reflexivity.
  now rewrite IH.
Qed.

Lemma runtime_init_debug (d : bool) :
  RuntimeConfig.__init__ config_yaml d
  = match RuntimeConfig.__init__ config_yaml false with
    | Ok r => Ok {| RuntimeConfig.debug := d;
                    RuntimeConfig.chunk_size := RuntimeConfig.chunk_size r |}
    | Raise e => Raise e
    end.
Proof.
  unfold RuntimeConfig.__init__.
  destruct (load_config config_yaml) as [conf|e]; [|reflexivity].
  destruct (getitem conf "runtime") as [rt|e]; [|reflexivity].
  now destruct (getitem rt "chunk_size").
Qed.

Lemma no_debug_errors (errs : list string) :
  filter (fun e => negb (is_debug e)) (map LogError errs) = map LogError errs.
Proof. induction errs as [|v l IH]; [reflexivity|]. cbn. now rewrite IH. Qed.

(** X20.  The [--debug] flag only adds debug lines: with and without it
    a run ends the same way and leaves the remote site in the same
    state, and the trace with the flag, its debug lines removed, is the
    trace without it. *)
Theorem debug_only_adds_debug_lines (s : RS) :
  exists r tr tr_debug s',
    Uploader.main RS office365 fs config_yaml (with_debug false self) s
    = (r, (tr, s'))
    /\ Uploader.main RS office365 fs config_yaml (with_debug true self) s
       = (r, (tr_debug, s'))
    /\ filter (fun e => negb (is_debug e)) tr_debug = tr.
Proof.
  destruct (SharepointConfig.__init__ config_yaml (Uploader._subsite self))
    as [spconf|e1] eqn:Hsp.
  2:{ exists (Raise e1), [], [], s. unfold Uploader.main, bind, lift.
      cbn [with_debug Uploader._subsite]. rewrite Hsp. auto. }
  pose proof (runtime_init_debug true) as Hrt1.
  destruct (RuntimeConfig.__init__ config_yaml false) as [rt|e2] eqn:Hrt0.
  2:{ exists (Raise e2), [], [], s. unfold Uploader.main, bind, lift.
      cbn [with_debug Uploader._subsite Uploader._debug].
      rewrite Hsp, Hrt0, Hrt1. auto. }
  assert (Hoffd : RuntimeConfig.debug rt = false).
  { pose proof (runtime_init_debug false) as H. rewrite Hrt0 in H.
    injection H as H. now rewrite H. }
  destruct (FilesConfig.verify fs
              (FilesConfig.__init__ fs (Uploader._path self)
                 (Uploader._files self) (Uploader._out self)))
    as [[errs fconf]|e3] eqn:Hv.
  2:{ exists (Raise e3), [], [], s. unfold Uploader.main, bind, lift.
      cbn [with_debug Uploader._subsite Uploader._debug Uploader._path
           Uploader._files Uploader._out].
      rewrite Hsp, Hrt0, Hrt1, Hv. auto. }
  pose proof (main_after_verify RS office365 fs config_yaml
                (with_debug false self) spconf rt errs fconf s Hsp Hrt0 Hv)
    as Hoff.
  pose proof (main_after_verify RS office365 fs config_yaml
                (with_debug true self) spconf _ errs fconf s Hsp Hrt1 Hv)
    as Hon.
  cbv zeta in Hoff, Hon. cbn [with_debug Uploader._debug] in Hoff, Hon.
  rewrite Hoff, Hon. clear Hoff Hon. clear Hrt0 Hrt1.
  destruct errs as [|v rest].
  2:{ do 4 eexists. split; [reflexivity|]. split; [reflexivity|].
      cbn [app filter is_debug negb]. apply (no_debug_errors (v :: rest)). }
  rewrite !upload_eq, !get_token_eq.
  cbn [Sharepoint.__init__ Sharepoint._spconfig Sharepoint._runtime
       Sharepoint._fconfig Sharepoint._url RuntimeConfig.debug
       with_debug Uploader._debug].
  rewrite Hoffd.
  destruct (session_url spconf) as [url|e].
  2:{ do 4 eexists. split; [reflexivity|]. split; reflexivity. }
  destruct (acquire_token_for_app office365 s url _ _) as [[[]|e] s1].
  2:{ do 4 eexists. split; [reflexivity|]. split; reflexivity. }
  cbv zeta. rewrite !verify_url_eq. cbn [Sharepoint._url].
  destruct (web_get office365 s1 url) as [[[title weburl]|e] s2].
  2:{ destruct e; do 4 eexists; (split; [reflexivity|]); split; reflexivity. }
  assert (Hext : forall s3,
             Sharepoint.upload_files RS office365 fs
               {| Sharepoint._fconfig := fconf; Sharepoint._spconfig := spconf;
                  Sharepoint._runtime :=
                    {| RuntimeConfig.debug := true;
                       RuntimeConfig.chunk_size := RuntimeConfig.chunk_size rt |};
                  Sharepoint._url := url |} s3
             = Sharepoint.upload_files RS office365 fs
                 {| Sharepoint._fconfig := fconf; Sharepoint._spconfig := spconf;
                    Sharepoint._runtime := rt; Sharepoint._url := url |} s3).
  { intros s3. unfold Sharepoint.upload_files. cbn [Sharepoint._fconfig].
    destruct (FilesConfig.files fconf); [|reflexivity].
    now apply upload_loop_ext. }
  destruct (truthy_opt (FilesConfig.out_folder fconf)).
  - rewrite !add_folder_eq. cbn [Sharepoint._url Sharepoint._fconfig].
    destruct (folder_add office365 s2 url _) as [[folder|e] s3].
    2:{ destruct e; do 4 eexists; (split; [reflexivity|]); split; reflexivity. }
    rewrite Hext.
    match goal with
    | |- context [Sharepoint.upload_files RS office365 fs ?sp s3] =>
        destruct (Sharepoint.upload_files RS office365 fs sp s3)
          as [r4 [t4 s4]] eqn:Hup;
        destruct (upload_files_calls RS office365 fs sp _ _ _ _ Hup)
          as (_ & Hd & _)
    end.
    destruct r4; do 4 eexists; (split; [reflexivity|]);
      (split; [reflexivity|]);
      rewrite !filter_app, Hd; reflexivity.
  - rewrite Hext.
    match goal with
    | |- context [Sharepoint.upload_files RS office365 fs ?sp s2] =>
        destruct (Sharepoint.upload_files RS office365 fs sp s2)
          as [r4 [t4 s4]] eqn:Hup;
        destruct (upload_files_calls RS office365 fs sp _ _ _ _ Hup)
          as (_ & Hd & _)
    end.
    destruct r4; do 4 eexists; (split; [reflexivity|]);
      (split; [reflexivity|]);
      rewrite !filter_app, Hd; reflexivity.
Qed.

End Debug.

(** *** The further properties at concrete inputs *)

Lemma verify_needs_input_witness :
  exists errs,
    FilesConfig.verify Fixtures.fs_home
      (FilesConfig.__init__ Fixtures.fs_home None (Some "") (Some "ok"))
    = Ok (errs, FilesConfig.__init__ Fixtures.fs_home None (Some "") (Some "ok"))
    /\ In "at least one of -i or -f must be present" errs.
Proof.
  apply (verify_needs_input Fixtures.fs_home
           (FilesConfig.__init__ Fixtures.fs_home None (Some "") (Some "ok")));
    reflexivity.
Defined.

Lemma verify_reports_every_check_witness :
  ["/nope does not exist"; "zz does not exist on path /nope";
   "My Folder contains illegal characters: only a-zA-Z0-9._- are allowed"]
  = (FilesConfig._verify_path Fixtures.fs_home
      (FilesConfig.__init__ Fixtures.fs_home (Some "/nope") (Some "a.txt,zz")
                            (Some "My Folder"))
    ++ flat_map
         (FilesConfig.verify_file Fixtures.fs_home
            (FilesConfig.__init__ Fixtures.fs_home (Some "/nope")
               (Some "a.txt,zz") (Some "My Folder")))
         ["a.txt"; "zz"]
    ++ FilesConfig._verify_out_folder
         (FilesConfig.__init__ Fixtures.fs_home (Some "/nope") (Some "a.txt,zz")
                               (Some "My Folder")))%list.
Proof.
  exact (verify_reports_every_check Fixtures.fs_home
           (FilesConfig.__init__ Fixtures.fs_home (Some "/nope")
              (Some "a.txt,zz") (Some "My Folder"))
           (FilesConfig.__init__ Fixtures.fs_home (Some "/nope")
              (Some "a.txt,zz") (Some "My Folder"))
           ["/nope does not exist"; "zz does not exist on path /nope";
            "My Folder contains illegal characters: only a-zA-Z0-9._- are allowed"]
           eq_refl).
Defined.

Lemma one_missing_entry_one_error_witness :
  FilesConfig._verify_files Fixtures.fs_home
    (FilesConfig.__init__ Fixtures.fs_home None (Some "a.txt,zz.txt") None)
  = ["zz.txt does not exist"].
Proof.
  apply (one_missing_entry_one_error Fixtures.fs_home
           (FilesConfig.__init__ Fixtures.fs_home None (Some "a.txt,zz.txt") None)
           ["a.txt"] [] "zz.txt");
    [reflexivity | | reflexivity | exact I].
  intros g [<-|[]]. reflexivity.
Defined.


Lemma verify_success_shape_witness :
  exists l,
    l = ["/d/b.txt"; "/home/u/a.txt"]
    /\ forallb isabs l = true.
Proof.
  destruct (verify_success_shape Fixtures.fs_home
              (FilesConfig.__init__ Fixtures.fs_home (Some "/d")
                 (Some "b.txt,/home/u/a.txt") None)
              {| FilesConfig.path := Some "/d";
                 FilesConfig.files := Some ["/d/b.txt"; "/home/u/a.txt"];
                 FilesConfig.out_folder := Some "d" |}
              eq_refl) as (_ & _ & l & Hl & Habs & _).
  exists l. split; [now injection Hl | exact Habs].
Defined.

Lemma absolute_entries_unchanged_witness :
  FilesConfig.files
    {| FilesConfig.path := Some "/d";
       FilesConfig.files := Some ["/d/b.txt"; "/home/u/a.txt"];
       FilesConfig.out_folder := Some "d" |}
  = Some ["/d/b.txt"; "/home/u/a.txt"].
Proof.
  apply (absolute_entries_unchanged Fixtures.fs_home
           (FilesConfig.__init__ Fixtures.fs_home (Some "/d")
              (Some "/d/b.txt,/home/u/a.txt") None));
    [reflexivity | reflexivity | discriminate | reflexivity].
Defined.


Lemma second_verify_keeps_files_witness :
  FilesConfig.files
    {| FilesConfig.path := Some "/d";
       FilesConfig.files := Some ["/d/b.txt"; "/d/c.txt"];
       FilesConfig.out_folder := Some "d" |}
  = Some ["/d/b.txt"; "/d/c.txt"].
Proof.
  apply (second_verify_keeps_files Fixtures.fs_home
           (FilesConfig.__init__ Fixtures.fs_home (Some "/d") None None)
           {| FilesConfig.path := Some "/d";
              FilesConfig.files := Some ["/d/b.txt"; "/d/c.txt"];
              FilesConfig.out_folder := Some "d" |}
           {| FilesConfig.path := Some "/d";
              FilesConfig.files := Some ["/d/b.txt"; "/d/c.txt"];
              FilesConfig.out_folder := Some "d" |}
           []);
    reflexivity.
Defined.

Lemma file_list_split_round_trip_witness :
  exists entries,
    FilesConfig.files
      (FilesConfig.__init__ Fixtures.fs_home None (Some "a.txt,,b.txt") None)
    = Some entries
    /\ entries <> []
    /\ String.concat "," entries = "a.txt,,b.txt"
    /\ forallb (fun e => negb (contains "," e)) entries = true.
Proof.
  apply (file_list_split_round_trip Fixtures.fs_home None None "a.txt,,b.txt").
  reflexivity.
Defined.



(** An empty [config.yaml] loads as null. *)
Example empty_document_raises_type_error :
  SharepointConfig.__init__ (Document YNull) None = Raise TypeError
  /\ RuntimeConfig.__init__ (Document YNull) false = Raise TypeError.
Proof. split; reflexivity. Qed.

Lemma auth_failure_is_caught_witness :
  exists tr,
    Uploader.main (list string) Fixtures.no_token Fixtures.fs_home
      (Document Fixtures.conf_sp) Fixtures.home_directory []
    = (Ok (Uploader.ReturnCaught (OtherException "invalid client secret")),
       ((tr ++ [LogException (OtherException "invalid client secret")])%list, []))
    /\ filter is_network tr
       = [NetAcquireToken (YStr "https://example.sharepoint.com/sites/x")
            (YStr "c-id") (YStr "s3cret")]
    /\ existsb is_failure_log tr = false.
Proof.
  exact (auth_failure_is_caught (list string) Fixtures.no_token Fixtures.fs_home
           (Document Fixtures.conf_sp) Fixtures.home_directory
           {| SharepointConfig.tenant := YStr "t-id";
              SharepointConfig.client := YStr "c-id";
              SharepointConfig.site := YStr "https://example.sharepoint.com/sites/x";
              SharepointConfig.secret := YStr "s3cret";
              SharepointConfig.subsite := None |}
           {| RuntimeConfig.debug := false; RuntimeConfig.chunk_size := YInt 4 |}
           {| FilesConfig.path := Some "/home/u";
              FilesConfig.files := Some ["/home/u/a.txt"];
              FilesConfig.out_folder := Some "u" |}
           "https://example.sharepoint.com/sites/x" [] []
           (OtherException "invalid client secret")
           eq_refl eq_refl eq_refl eq_refl eq_refl).
Defined.

Lemma site_query_failure_stops_run_witness :
  exists tr,
    Uploader.main (list string) Fixtures.no_site Fixtures.fs_home
      (Document Fixtures.conf_sp) Fixtures.home_directory_debug []
    = (Ok Uploader.ReturnNoSite, (tr, []))
    /\ filter is_network tr
       = [NetAcquireToken (YStr "https://example.sharepoint.com/sites/x/team")
            (YStr "c-id") (YStr "s3cret");
          NetGetWeb (YStr "https://example.sharepoint.com/sites/x/team")]
    /\ logged_errors tr = ["404 Not Found"].
Proof.
  exact (site_query_failure_stops_run (list string) Fixtures.no_site
           Fixtures.fs_home (Document Fixtures.conf_sp)
           Fixtures.home_directory_debug
           {| SharepointConfig.tenant := YStr "t-id";
              SharepointConfig.client := YStr "c-id";
              SharepointConfig.site := YStr "https://example.sharepoint.com/sites/x";
              SharepointConfig.secret := YStr "s3cret";
              SharepointConfig.subsite := Some "team" |}
           {| RuntimeConfig.debug := true; RuntimeConfig.chunk_size := YInt 4 |}
           {| FilesConfig.path := Some "/home/u";
              FilesConfig.files := Some ["/home/u/a.txt"];
              FilesConfig.out_folder := Some "u" |}
           "https://example.sharepoint.com/sites/x" "404 Not Found" [] [] []
           eq_refl eq_refl eq_refl eq_refl eq_refl eq_refl).
Defined.

Lemma folder_failure_stops_run_witness :
  exists tr,
    Uploader.main (list string) Fixtures.no_folder Fixtures.fs_home
      (Document Fixtures.conf_sp) Fixtures.home_directory []
    = (Ok Uploader.ReturnNoFolder, (tr, []))
    /\ uploads_attempted tr = []
    /\ logged_errors tr = ["folder already exists"].
Proof.
  exact (folder_failure_stops_run (list string) Fixtures.no_folder
           Fixtures.fs_home (Document Fixtures.conf_sp) Fixtures.home_directory
           {| SharepointConfig.tenant := YStr "t-id";
              SharepointConfig.client := YStr "c-id";
              SharepointConfig.site := YStr "https://example.sharepoint.com/sites/x";
              SharepointConfig.secret := YStr "s3cret";
              SharepointConfig.subsite := None |}
           {| RuntimeConfig.debug := false; RuntimeConfig.chunk_size := YInt 4 |}
           {| FilesConfig.path := Some "/home/u";
              FilesConfig.files := Some ["/home/u/a.txt"];
              FilesConfig.out_folder := Some "u" |}
           "https://example.sharepoint.com/sites/x" "folder already exists"
           "X" "https://example.sharepoint.com/sites/x" [] [] [] []
           eq_refl eq_refl eq_refl eq_refl eq_refl eq_refl eq_refl eq_refl).
Defined.


Lemma complete_run_uploads_everything_witness :
  exists fconf,
    FilesConfig.verify Fixtures.fs_home
      (FilesConfig.__init__ Fixtures.fs_home (Some "/home/u") None None)
    = Ok ([], fconf)
    /\ FilesConfig.files fconf = Some ["/home/u/a.txt"].
Proof.
  destruct (Uploader.main (list string) Fixtures.site Fixtures.fs_home
              (Document Fixtures.conf_sp) Fixtures.home_directory [])
    as [r [tr s']] eqn:Hrun.
  assert (Hrun' := Hrun). vm_compute in Hrun'.
  injection Hrun' as <- <- <-.
  destruct (complete_run_uploads_everything (list string) Fixtures.site
              Fixtures.fs_home (Document Fixtures.conf_sp)
              Fixtures.home_directory [] _ _ Hrun)
    as (fconf & Hv & Hfiles & _).
  exists fconf. split; [exact Hv | exact Hfiles].
Defined.

Lemma missing_file_at_upload_raises_witness :
  Sharepoint.upload_files (list string) Fixtures.site Fixtures.fs_home
    Fixtures.session_missing []
  = (Raise (FileNotFoundError "/d/a.txt"),
     ([LogInfo "File upload: b.txt";
       NetUpload (YStr "https://example.sharepoint.com/sites/x") (Some "d")
                 "/d/b.txt" (YInt 4);
       Progress {| total := 10; n := 4 |};
       Progress {| total := 10; n := 8 |};
       Progress {| total := 10; n := 12 |};
       LogSuccess "File /d/b.txt uploaded to: /sites/x/Shared Documents/d/b.txt";
       LogInfo "File upload: a.txt"],
      ["/d/b.txt"])).
Proof.
  exact (proj1 (missing_file_at_upload_raises (list string) Fixtures.site
                  Fixtures.fs_home Fixtures.session_missing
                  ["/d/b.txt"] ["/d/c.txt"] "/d/a.txt" [] ["/d/b.txt"]
                  [LogInfo "File upload: b.txt";
                   NetUpload (YStr "https://example.sharepoint.com/sites/x")
                             (Some "d") "/d/b.txt" (YInt 4);
                   Progress {| total := 10; n := 4 |};
                   Progress {| total := 10; n := 8 |};
                   Progress {| total := 10; n := 12 |};
                   LogSuccess "File /d/b.txt uploaded to: /sites/x/Shared Documents/d/b.txt"]
                  (FileNotFoundError "/d/a.txt")
                  eq_refl eq_refl eq_refl)).
Defined.

Lemma other_exception_passes_through_witness :
  exists tr2,
    Sharepoint.upload_files (list string) Fixtures.broken_pipe Fixtures.fs_home
      Fixtures.session []
    = (Raise (OtherException "connection reset"), (tr2, []))
    /\ uploads_attempted tr2 = ["/d/b.txt"]
    /\ existsb is_failure_log tr2 = false.
Proof.
  assert (Hother : forall msg,
             OtherException "connection reset" <> ClientRequestException msg)
    by discriminate.
  exact (other_exception_passes_through (list string) Fixtures.broken_pipe
           Fixtures.fs_home Fixtures.session
           [] ["/d/c.txt"; "/home/u/a.txt"] "/d/b.txt" [] [] [] []
           10%Z 4%Z [4%Z] (OtherException "connection reset")
           eq_refl eq_refl eq_refl eq_refl eq_refl Hother).
Defined.
